(** * Fraud-detection service: the request path of [main.py]

    A shallow embedding of the transaction simulator
    ([get_wallet_transactions]), the feature extraction, the decision
    policy and the exception flow of the [analyze_wallet] handler, with
    the properties the specification states about them.

    Conventions.
    - A Python [str] is modelled by the bytes of its UTF-8 encoding
      ([String.string]).  Substring tests against ASCII patterns and
      string equality agree on both views.
    - A Python [int] is a [Z]; a Python [float] is an IEEE-754 binary64
      value, modelled by the Standard Library's [spec_float] with
      precision 53 and maximal exponent 1024.
    - The interpreter's libraries ([random], [hashlib], [round], the
      encoder and the network) are not part of the program: they are
      taken through interfaces that state only what their documentation
      promises. *)

From Stdlib Require Import ZArith List String Ascii Bool Lia Permutation.
From Stdlib Require Import SpecFloat DecimalString.
Import ListNotations.

Local Open Scope string_scope.
Local Open Scope Z_scope.

(** ** Python floats *)

Module Float64.

Definition prec : Z := 53.
Definition emax : Z := 1024.

Definition float : Type := spec_float.

(** [float(n)] for an integer [n], rounded to nearest-even. *)
Definition of_int (n : Z) : float := binary_normalize prec emax n 0 false.

Definition div : float -> float -> float := SFdiv prec emax.

(** [x < y], [x <= y], [x == y] and [x > y] on floats; every comparison
    with a NaN is false. *)
Definition ltb : float -> float -> bool := SFltb.
Definition leb : float -> float -> bool := SFleb.
Definition eqb : float -> float -> bool := SFeqb.
Definition gtb (x y : float) : bool := SFltb y x.

(** A decimal literal [p/q] denotes the binary64 value nearest to it;
    for integers [p] and [q] below [2^53] that is the correctly rounded
    quotient. *)
Definition literal (p q : Z) : float := div (of_int p) (of_int q).

Definition lit_0_85 : float := Eval vm_compute in literal 85 100.
Definition lit_0_60 : float := Eval vm_compute in literal 60 100.
Definition lit_0_8 : float := Eval vm_compute in literal 8 10.
Definition lit_0_1 : float := Eval vm_compute in literal 1 10.

End Float64.

Import Float64.

(** ** Python exceptions and numbers *)

Inductive exn : Type :=
| HTTPException (status_code : Z) (detail : detail)
| ValueError
| IndexError
| ZeroDivisionError
| OverflowError
| OtherException (name : string)

(** The [detail] of an [HTTPException] is a message, or [str(e)] of a
    caught exception, which is kept symbolic. *)
with detail : Type :=
| Msg (s : string)
| StrOf (e : exn).

Inductive result (A : Type) : Type :=
| Ok (a : A)
| Raise (e : exn).

Arguments Ok {A} a.
Arguments Raise {A} e.

Inductive PyNum : Type :=
| PyInt (n : Z)
| PyFloat (x : float).

(** [x < y] on numbers.  An [int] operand of a mixed comparison is
    compared by its value, which [of_int] gives exactly below [2^53]. *)
Definition num_lt (x y : PyNum) : bool :=
  match x, y with
  | PyInt a, PyInt b => a <? b
  | PyInt a, PyFloat b => ltb (of_int a) b
  | PyFloat a, PyInt b => ltb a (of_int b)
  | PyFloat a, PyFloat b => ltb a b
  end.

Definition num_eq (x y : PyNum) : bool :=
  match x, y with
  | PyInt a, PyInt b => a =? b
  | PyInt a, PyFloat b => eqb (of_int a) b
  | PyFloat a, PyInt b => eqb a (of_int b)
  | PyFloat a, PyFloat b => eqb a b
  end.

(** [a / b] on integers: the correctly rounded quotient,
    [ZeroDivisionError] for a zero divisor and [OverflowError] when the
    quotient does not fit a float. *)
Definition int_truediv (a b : Z) : result float :=
  match b with
  | Z0 => Raise ZeroDivisionError
  | _ =>
    match a with
    | Z0 => Ok (S754_zero (b <? 0))
    | _ =>
      match div (S754_finite (a <? 0) (Z.to_pos (Z.abs a)) 0)
                (S754_finite (b <? 0) (Z.to_pos (Z.abs b)) 0) with
      | S754_infinity _ => Raise OverflowError
      | q => Ok q
      end
    end
  end.

(** ** Python strings *)

(** [pat in s]. *)
Fixpoint contains (pat s : string) : bool :=
  prefix pat s ||
  match s with
  | EmptyString => false
  | String _ s' => contains pat s'
  end.

(** [str(n)] for a natural number, as an f-string prints it. *)
Definition str_nat (n : nat) : string := NilZero.string_of_uint (Nat.to_uint n).

(** ** The libraries the program calls *)

(** [random] and [hashlib], as the simulator uses them. *)
Class PyRandom : Type := {
  (** the state of the global generator of [random] *)
  rng_state : Type;
  (** [int(hashlib.md5(s.encode()).hexdigest(), 16)] *)
  md5_int : string -> Z;
  (** [random.seed(n)]: the generator state after seeding, whatever it
      was before *)
  seed : Z -> rng_state;
  (** [random.randint(a, b)]: the number drawn and the next state *)
  randint : Z -> Z -> rng_state -> Z * rng_state;
  randint_range : forall a b g, a <= b -> a <= fst (randint a b g) <= b
}.

(** The numeric library functions of the handler, left uninterpreted. *)
Class PyNumeric : Type := {
  (** [torch.exp], on one entry of a tensor *)
  torch_exp : float -> float;
  (** [round(x, ndigits)] *)
  py_round : float -> Z -> float
}.

(** ** Data model *)

Record Txn : Type := mkTxn {
  sender : string;
  receiver : string;
  amount : Z
}.

Record FraudCheck : Type := mkFraudCheck {
  wallet_address : string;
  asset_id : Z
}.

(** ** Transaction simulator *)

Section Simulator.

Context {R : PyRandom}.

(** [[mk i random.randint(lo, hi) for i in range(n)]]: one amount is
    drawn per element, in order; [i] counts from [start]. *)
Fixpoint comprehension (mk : nat -> Z -> Txn) (lo hi : Z)
         (n start : nat) (g : rng_state) : list Txn * rng_state :=
  match n with
  | O => ([], g)
  | S n' =>
    let (a, g1) := randint lo hi g in
    let (rest, g2) := comprehension mk lo hi n' (S start) g1 in
    (mk start a :: rest, g2)
  end.

(** One branch of the simulator: the count is drawn first, then the
    amounts. *)
Definition pattern (cmin cmax : Z) (mk : nat -> Z -> Txn) (lo hi : Z)
           (g : rng_state) : list Txn * rng_state :=
  let (txn_count, g1) := randint cmin cmax g in
  comprehension mk lo hi (Z.to_nat txn_count) 0 g1.

(** [get_wallet_transactions]: the state [g0] of the global generator
    comes in and the new one goes out; the seeding overwrites [g0]. *)
Definition get_wallet_transactions (wallet_address : string) (asset_id : Z)
           (g0 : rng_state) : list Txn * rng_state :=
  let g := seed (md5_int wallet_address mod 2 ^ 32) in
  if contains "MULE" wallet_address then
    pattern 15 30
      (fun _ a => mkTxn wallet_address "HUB_COLLECTOR_01" a) 100 500 g
  else if contains "HUB" wallet_address then
    pattern 20 40
      (fun i a => mkTxn ("MULE_" ++ str_nat (Nat.modulo i 10)) wallet_address a)
      100 500 g
  else if contains "STU" wallet_address then
    pattern 1 5
      (fun _ a => mkTxn "GOVT_SCHOLARSHIP_DEPT" wallet_address a) 1000 5000 g
  else if contains "GOVT" wallet_address then
    pattern 40 60
      (fun i a => mkTxn wallet_address ("STU_" ++ str_nat (Nat.modulo i 50)) a)
      1000 5000 g
  else
    pattern 1 3
      (fun _ a => mkTxn wallet_address "UNKNOWN_RECIPIENT" a) 100 1000 g.

End Simulator.

(** ** Feature extraction *)

Record Features : Type := mkFeatures {
  in_d : Z;
  out_d : Z;
  total_amount : Z;
  avg_amount : PyNum;
  structuring_score : float;
  account_age : Z
}.

(** [len([t for t in txns if t['receiver'] == address])] *)
Definition in_degree (txns : list Txn) (address : string) : Z :=
  Z.of_nat (List.length (filter (fun t => String.eqb (receiver t) address) txns)).

(** [len([t for t in txns if t['sender'] == address])] *)
Definition out_degree (txns : list Txn) (address : string) : Z :=
  Z.of_nat (List.length (filter (fun t => String.eqb (sender t) address) txns)).

(** [sum([t['amount'] for t in txns if t['sender'] == address])] *)
Definition total_outgoing (txns : list Txn) (address : string) : Z :=
  fold_left Z.add
    (map amount (filter (fun t => String.eqb (sender t) address) txns)) 0.

(** [total_amount / max(out_d, 1) if out_d > 0 else 0] *)
Definition average (total_amount out_d : Z) : result PyNum :=
  if 0 <? out_d then
    match int_truediv total_amount (Z.max out_d 1) with
    | Ok q => Ok (PyFloat q)
    | Raise e => Raise e
    end
  else Ok (PyInt 0).

(** [0.8 if out_d > 0 and avg_amount < 500 else 0.1] *)
Definition structuring (out_d : Z) (avg_amount : PyNum) : float :=
  if (0 <? out_d) && num_lt avg_amount (PyInt 500) then lit_0_8 else lit_0_1.

(** Step C of the handler. *)
Definition extract_features (txns : list Txn) (address : string)
  : result Features :=
  let in_d := in_degree txns address in
  let out_d := out_degree txns address in
  let total_amount := total_outgoing txns address in
  match average total_amount out_d with
  | Raise e => Raise e
  | Ok avg_amount =>
    Ok (mkFeatures in_d out_d total_amount avg_amount
          (structuring out_d avg_amount) 30)
  end.

Definition wallet_features (f : Features) : list PyNum :=
  [PyInt (in_d f); PyInt (out_d f); avg_amount f;
   PyFloat (structuring_score f); PyInt (account_age f)].

Definition dummy_features : list PyNum :=
  [PyInt 0; PyInt 0; PyInt 0; PyInt 0; PyInt 0].

(** ** The handler's effects *)

(** A background task: [trigger_blockchain_freeze] with its arguments. *)
Record Task : Type := mkTask {
  task_wallet : string;
  task_asset : Z
}.

Definition FeatureMatrix : Type := list (list PyNum).
Definition EdgeIndex : Type := list (list Z).
Definition Tensor : Type := list (list float).

(** The encoder unpickled at startup: [transform] maps labels to
    indices and raises on a label it does not know. *)
Record LabelEncoder : Type := mkLabelEncoder {
  transform : list string -> result (list Z)
}.

(** The global [state] dict after [load_resources]: ["encoder"] is
    [None] when the pickle file is missing; ["model"] is the network in
    evaluation mode.  [model state features edge_index] stands for the
    conversion of the two lists to tensors followed by the forward pass
    under [torch.no_grad()]; it is left uninterpreted, and the
    single-precision entries of its output are carried as floats. *)
Record AppState : Type := mkAppState {
  encoder : option LabelEncoder;
  model : FeatureMatrix -> EdgeIndex -> result Tensor
}.

Record Response : Type := mkResponse {
  address : string;
  risk_score : float;
  decision : string;
  monitored_asset : Z
}.

Section Handler.

Context {R : PyRandom} {N : PyNumeric}.

(** What a request can change: the global generator, the request's
    [BackgroundTasks], and (as a ghost trace) the inputs on which the
    model was run. *)
Record World : Type := mkWorld {
  rng : rng_state;
  background_tasks : list Task;
  inference_log : list FeatureMatrix
}.

(** Computations that read and write the world and may raise; the world
    survives a raise. *)
Definition M (A : Type) : Type := World -> result A * World.

Definition ret {A} (a : A) : M A := fun w => (Ok a, w).

Definition raise {A} (e : exn) : M A := fun w => (Raise e, w).

Definition bind {A B} (c : M A) (k : A -> M B) : M B :=
  fun w =>
    match c w with
    | (Ok a, w') => k a w'
    | (Raise e, w') => (Raise e, w')
    end.

(** [try: c  except ...: h e] where [h] re-raises what its clause does
    not match. *)
Definition try_except {A} (c : M A) (h : exn -> M A) : M A :=
  fun w =>
    match c w with
    | (Ok a, w') => (Ok a, w')
    | (Raise e, w') => h e w'
    end.

Definition lift {A} (r : result A) : M A := fun w => (r, w).

Notation "x <- c ;; k" := (bind c (fun x => k))
  (at level 100, c at next level, right associativity).
Notation "c ;;; k" := (bind c (fun _ => k))
  (at level 100, right associativity).

(** [l[i]] for a non-negative [i]. *)
Definition index {A} (l : list A) (i : nat) : result A :=
  match nth_error l i with
  | Some a => Ok a
  | None => Raise IndexError
  end.

(** Step A: the call of [get_wallet_transactions] on the global
    generator. *)
Definition fetch_transactions (wallet_address : string) (asset_id : Z)
  : M (list Txn) :=
  fun w =>
    let (txns, g) := get_wallet_transactions wallet_address asset_id (rng w) in
    (Ok txns, mkWorld g (background_tasks w) (inference_log w)).

(** [background_tasks.add_task(trigger_blockchain_freeze, wallet, asset_id)] *)
Definition add_task (t : Task) : M unit :=
  fun w => (Ok tt, mkWorld (rng w) (background_tasks w ++ [t]) (inference_log w)).

(** Step D: the model is run on the features, the output is
    exponentiated and entry [[0][1]] is read. *)
Definition run_inference (state : AppState) (features : FeatureMatrix)
           (edge_index : EdgeIndex) : M float :=
  fun w =>
    let w' := mkWorld (rng w) (background_tasks w) (inference_log w ++ [features]) in
    match model state features edge_index with
    | Raise e => (Raise e, w')
    | Ok output =>
      let probs := map (map torch_exp) output in
      match index probs 0 with
      | Raise e => (Raise e, w')
      | Ok row => (index row 1, w')
      end
    end.

(** Step E: the decision and the freeze task. *)
Definition determine_action (risk_score : float) (data : FraudCheck)
  : M string :=
  if gtb risk_score lit_0_85 then
    add_task (mkTask (wallet_address data) (asset_id data)) ;;;
    ret "FRAUD_HIGH"
  else if gtb risk_score lit_0_60 then ret "SUSPICIOUS_REVIEW"
  else ret "CLEAR".

(** Step B: the encoder check and the lookup of the wallet. *)
Definition resolve_wallet (state : AppState) (data : FraudCheck) : M Z :=
  match encoder state with
  | None =>
    raise (HTTPException 503 (Msg "Encoder not loaded. Model not ready."))
  | Some enc =>
    try_except
      (ys <- lift (transform enc [wallet_address data]) ;;
       lift (index ys 0))
      (fun e =>
         match e with
         | ValueError =>
           raise (HTTPException 404
                    (Msg "Wallet address not found in historical graph data."))
         | _ => raise e
         end)
  end.

(** [analyze_wallet]: the body of the outer [try] and its
    [except Exception] clause, which every exception of the model
    matches. *)
Definition analyze_wallet (state : AppState) (data : FraudCheck) : M Response :=
  try_except
    (txns <- fetch_transactions (wallet_address data) (asset_id data) ;;
     wallet_idx <- resolve_wallet state data ;;
     f <- lift (extract_features txns (wallet_address data)) ;;
     let features := [wallet_features f; dummy_features] in
     let edge_index := [[0; 1]; [1; 0]] in
     risk_score <- run_inference state features edge_index ;;
     decision <- determine_action risk_score data ;;
     ret (mkResponse (wallet_address data) (py_round risk_score 4)
            decision (asset_id data)))
    (fun e => raise (HTTPException 500 (StrOf e))).

(** What the framework's JSON encoder accepts as a number: NaN and the
    infinities are refused. *)
Definition json_compliant (x : float) : bool :=
  match x with
  | S754_nan | S754_infinity _ => false
  | _ => true
  end.

(** The status of the HTTP response: the code of a raised
    [HTTPException], 500 for any other exception, 200 for a returned
    body that can be serialized and 500 for one that cannot. *)
Definition http_status (r : result Response) : Z :=
  match r with
  | Ok resp => if json_compliant (risk_score resp) then 200 else 500
  | Raise (HTTPException code _) => code
  | Raise _ => 500
  end.

End Handler.

(** ** The profile of a student wallet

    What the specification expects of the transactions generated for an
    address and of the features extracted from them: every transaction
    is inbound from the scholarship department, nothing is outbound, so
    the average is the integer 0 and the structuring score is 0.1. *)
Definition student_profile {R : PyRandom} (addr : string) (asset : Z)
           (g : rng_state) : Prop :=
  let txns := fst (get_wallet_transactions addr asset g) in
  in_degree txns addr = Z.of_nat (List.length txns) /\
  Forall (fun t => sender t = "GOVT_SCHOLARSHIP_DEPT") txns /\
  exists f, extract_features txns addr = Ok f /\
            in_d f = Z.of_nat (List.length txns) /\
            out_d f = 0 /\
            avg_amount f = PyInt 0 /\
            structuring_score f = lit_0_1.

(** ** A small inhabitant of the library interfaces

    None of the theorems below depends on it: they hold for every
    generator that keeps [randint] within its bounds.  It shows that the
    interfaces can be met and gives the concrete runs something to run
    on. *)

Module Reference.

(** The bytes of the string read as a number, standing for the digest. *)
Fixpoint bytes_int (s : string) : Z :=
  match s with
  | EmptyString => 0
  | String c s' => Z.of_nat (nat_of_ascii c) + 256 * bytes_int s'
  end.

(** A linear congruential generator. *)
Definition lcg_next (g : Z) : Z := (1103515245 * g + 12345) mod 2 ^ 31.

Definition lcg_randint (a b g : Z) : Z * Z :=
  (a + lcg_next g mod (b - a + 1), lcg_next g).

Lemma lcg_randint_range (a b g : Z) :
  a <= b -> a <= fst (lcg_randint a b g) <= b.
Proof.
  intros Hab. unfold lcg_randint. cbn [fst].
  pose proof (Z.mod_pos_bound (lcg_next g) (b - a + 1)). lia.
Qed.

#[export] Instance lcg : PyRandom := {|
  rng_state := Z;
  md5_int := bytes_int;
  seed := fun n => n;
  randint := lcg_randint;
  randint_range := lcg_randint_range
|}.

(** The numeric functions left as they are not examined: the
    exponential is not evaluated and rounding keeps its argument. *)
#[export] Instance plain_numeric : PyNumeric := {|
  torch_exp := fun x => x;
  py_round := fun x _ => x
|}.

(** An encoder that knows the labels of [classes] and raises
    [ValueError] on any other. *)
Fixpoint position (classes : list string) (label : string) : option Z :=
  match classes with
  | [] => None
  | c :: rest =>
    if String.eqb c label then Some 0
    else option_map Z.succ (position rest label)
  end.

Fixpoint transform_labels (classes labels : list string) : result (list Z) :=
  match labels with
  | [] => Ok []
  | l :: rest =>
    match position classes l, transform_labels classes rest with
    | Some i, Ok ixs => Ok (i :: ixs)
    | None, _ => Raise ValueError
    | _, Raise e => Raise e
    end
  end.

Definition encoder_of (classes : list string) : LabelEncoder :=
  mkLabelEncoder (transform_labels classes).

(** A model whose output gives node 0 the class-1 entry [p]. *)
Definition constant_model (p : float) : FeatureMatrix -> EdgeIndex -> result Tensor :=
  fun _ _ => Ok [[p; p]; [p; p]].

Definition world0 : World := mkWorld (0 : Z) [] [].

End Reference.

(** ** Startup *)

(** What reading a file at startup can give: the object loaded,
    [FileNotFoundError], or any other exception. *)
Inductive load_outcome (A : Type) : Type :=
| Loaded (a : A)
| Missing
| Failed (e : exn).

Arguments Loaded {A} a.
Arguments Missing {A}.
Arguments Failed {A} e.

(** What [load_resources] finds: the unpickling of [label_encoder.pkl],
    the network after [load_state_dict(torch.load("model.pt"))], and the
    network as [FraudGNN(in_channels=5)] initializes it. *)
Record Environment : Type := mkEnvironment {
  label_encoder_pkl : load_outcome LabelEncoder;
  model_pt : load_outcome (FeatureMatrix -> EdgeIndex -> result Tensor);
  untrained_model : FeatureMatrix -> EdgeIndex -> result Tensor
}.

(** [load_resources]: a missing file is caught by the inner [except
    FileNotFoundError] clauses, any other exception is re-raised by the
    outer clause and the service does not start.  The indexer client it
    also stores is never read by the handler, and its constructor only
    keeps its three arguments; it is left out. *)
Definition load_resources (env : Environment) : result AppState :=
  match label_encoder_pkl env with
  | Failed e => Raise e
  | outcome =>
    let encoder :=
      match outcome with
      | Loaded enc => Some enc
      | _ => None
      end in
    match model_pt env with
    | Failed e => Raise e
    | Loaded m => Ok (mkAppState encoder m)
    | Missing => Ok (mkAppState encoder (untrained_model env))
    end
  end.

(** ** Ranking the decisions *)

Definition severity (decision : string) : Z :=
  if String.eqb decision "FRAUD_HIGH" then 2
  else if String.eqb decision "SUSPICIOUS_REVIEW" then 1
  else 0.

(** A transaction in which the address takes part. *)
Definition involves (address : string) (t : Txn) : bool :=
  String.eqb (sender t) address || String.eqb (receiver t) address.

(** ** Reading the rounding of a quotient *)

(** What a location says of a remainder [rem] of a division by [den]. *)
Definition frac_loc (l : location) (rem den : Z) : Prop :=
  match l with
  | loc_Exact => rem = 0
  | loc_Inexact Lt => 0 < rem /\ 2 * rem < den
  | loc_Inexact Eq => 2 * rem = den
  | loc_Inexact Gt => den < 2 * rem
  end.

(** The second half of [binary_round_aux]: the rounded mantissa is
    renormalized and the exponent checked. *)
Definition finish (m2 e1 : Z) : spec_float :=
  let '(mrs, e2) := shr_fexp prec emax m2 e1 loc_Exact in
  match shr_m mrs with
  | Z0 => S754_zero false
  | Zpos m => if e2 <=? emax - prec then S754_finite false m e2 else S754_infinity false
  | Zneg _ => S754_nan
  end.

(** ** The average as the specification words it *)

(** [total_outgoing / out_degree] if [out_degree > 0], else 0, over the
    transaction list itself. *)
Definition avg_outgoing (txns : list Txn) (address : string) : result PyNum :=
  if 0 <? out_degree txns address then
    match int_truediv (total_outgoing txns address) (out_degree txns address) with
    | Ok q => Ok (PyFloat q)
    | Raise e => Raise e
    end
  else Ok (PyInt 0).

(** ** The network *)

Definition float_zero : float := S754_zero false.
Definition float_one : float := Eval vm_compute in of_int 1.

(** The functions of [torch] that [FraudGNN.forward] and the handler
    call, with what their documentation promises: dropout is the
    identity outside training, and a log-probability is not positive
    (every entry of [log_softmax] is NaN or at most 0). *)
Class Torch : Type := {
  (** [torch.tensor(rows, dtype=torch.float)] *)
  tensor : FeatureMatrix -> Tensor;
  (** [x.relu()] *)
  relu : Tensor -> Tensor;
  (** [F.dropout(x, p=0.5, training=t)] *)
  dropout : Tensor -> bool -> Tensor;
  (** [F.log_softmax(x, dim=1)] *)
  log_softmax : Tensor -> Tensor;
  dropout_eval : forall x, dropout x false = x;
  log_softmax_nonpos :
    forall x row y, In row (log_softmax x) -> In y row ->
                    y = S754_nan \/ leb y float_zero = true
}.

(** A [FraudGNN]: its two [SAGEConv] layers with their weights, and the
    training flag of the module. *)
Record FraudGNN : Type := mkFraudGNN {
  conv1 : Tensor -> EdgeIndex -> result Tensor;
  conv2 : Tensor -> EdgeIndex -> result Tensor;
  training : bool
}.

Section Network.

Context {T : Torch}.

(** [FraudGNN.forward] *)
Definition forward (self : FraudGNN) (x : Tensor) (edge_index : EdgeIndex)
  : result Tensor :=
  match conv1 self x edge_index with
  | Raise e => Raise e
  | Ok h =>
    let x := relu h in
    let x := dropout x (training self) in
    match conv2 self x edge_index with
    | Raise e => Raise e
    | Ok x => Ok (log_softmax x)
    end
  end.

(** [state["model"]] when it is a [FraudGNN]: the feature rows are made
    a tensor and passed forward. *)
Definition gnn_model (self : FraudGNN)
  : FeatureMatrix -> EdgeIndex -> result Tensor :=
  fun features edge_index => forward self (tensor features) edge_index.

End Network.

(** [k / 10**4]: the float nearest to the decimal [k * 10^-4]. *)
Definition decimal4 (k : Z) : float :=
  match int_truediv k 10000 with
  | Ok q => q
  | Raise _ => S754_nan
  end.

(** What the documentation promises of [torch.exp] and of [round]: the
    exponential of a number that is at most 0 lies in [0, 1] and that of
    NaN is NaN; [round(x, 4)] of NaN is NaN, and for [x] in [0, 1] it
    equals the float nearest to [k * 10^-4] for an integer [k] between 0
    and [10^4]. *)
Class PyNumericLaws (N : PyNumeric) : Prop := {
  exp_unit :
    forall y, leb y float_zero = true ->
              leb float_zero (torch_exp y) = true /\
              leb (torch_exp y) float_one = true;
  exp_nan : torch_exp S754_nan = S754_nan;
  round_nan : forall n, py_round S754_nan n = S754_nan;
  round_decimal :
    forall x, leb float_zero x = true -> leb x float_one = true ->
              exists k, 0 <= k <= 10000 /\
                        eqb (py_round x 4) (decimal4 k) = true
}.

(** * Properties *)

(** ** Lists and strings *)

Lemma filter_all {A} (f : A -> bool) (l : list A) :
  Forall (fun x => f x = true) l -> filter f l = l.
Proof.
  induction 1 as [|x l Hx _ IH]; cbn; [reflexivity|].
  rewrite Hx, IH. reflexivity.
Qed.

Lemma filter_none {A} (f : A -> bool) (l : list A) :
  Forall (fun x => f x = false) l -> filter f l = [].
Proof.
  induction 1 as [|x l Hx _ IH]; cbn; [reflexivity|].
  rewrite Hx. exact IH.
Qed.

(** A string that contains [pat] differs from one that does not. *)
Lemma contains_neq (pat s s' : string) :
  contains pat s = true -> contains pat s' = false -> String.eqb s' s = false.
Proof.
  intros Hs Hs'. destruct (String.eqb_spec s' s) as [->|]; congruence.
Qed.

(** ** The simulator's loop *)

Section SimulatorFacts.

Context {R : PyRandom}.

Lemma comprehension_length mk lo hi n start g :
  List.length (fst (comprehension mk lo hi n start g)) = n.
Proof.
  revert start g. induction n as [|n IH]; intros start g; cbn; [reflexivity|].
  destruct (randint lo hi g) as [a g1].
  specialize (IH (S start) g1).
  destruct (comprehension mk lo hi n (S start) g1) as [rest g2].
  cbn in *. congruence.
Qed.

(** Whatever holds of [mk i a] for every amount within the bounds holds
    of every element. *)
Lemma comprehension_Forall (P : Txn -> Prop) mk lo hi n start g :
  lo <= hi ->
  (forall i a, lo <= a <= hi -> P (mk i a)) ->
  Forall P (fst (comprehension mk lo hi n start g)).
Proof.
  intros Hb HP. revert start g.
  induction n as [|n IH]; intros start g; cbn; [constructor|].
  pose proof (randint_range lo hi g Hb) as Ha.
  destruct (randint lo hi g) as [a g1].
  specialize (IH (S start) g1).
  destruct (comprehension mk lo hi n (S start) g1) as [rest g2].
  cbn in *. constructor; auto.
Qed.

Lemma pattern_length cmin cmax mk lo hi g :
  0 <= cmin <= cmax ->
  cmin <= Z.of_nat (List.length (fst (pattern cmin cmax mk lo hi g))) <= cmax.
Proof.
  intros [H0 Hc]. unfold pattern.
  pose proof (randint_range cmin cmax g Hc) as Hn.
  destruct (randint cmin cmax g) as [n g1]. cbn [fst] in Hn.
  rewrite comprehension_length. lia.
Qed.

Lemma pattern_Forall (P : Txn -> Prop) cmin cmax mk lo hi g :
  lo <= hi ->
  (forall i a, lo <= a <= hi -> P (mk i a)) ->
  Forall P (fst (pattern cmin cmax mk lo hi g)).
Proof.
  intros Hb HP. unfold pattern.
  destruct (randint cmin cmax g) as [n g1].
  now apply comprehension_Forall.
Qed.

End SimulatorFacts.

(** ** The simulator's branches *)

Section SimulatorBranches.

Context {R : PyRandom}.

Lemma get_wallet_transactions_mule addr asset g0 :
  contains "MULE" addr = true ->
  get_wallet_transactions addr asset g0 =
  pattern 15 30 (fun _ a => mkTxn addr "HUB_COLLECTOR_01" a) 100 500
    (seed (md5_int addr mod 2 ^ 32)).
Proof. intros H. unfold get_wallet_transactions. now rewrite H. Qed.

Lemma get_wallet_transactions_stu addr asset g0 :
  contains "MULE" addr = false ->
  contains "HUB" addr = false ->
  contains "STU" addr = true ->
  get_wallet_transactions addr asset g0 =
  pattern 1 5 (fun _ a => mkTxn "GOVT_SCHOLARSHIP_DEPT" addr a) 1000 5000
    (seed (md5_int addr mod 2 ^ 32)).
Proof.
  intros H1 H2 H3. unfold get_wallet_transactions. now rewrite H1, H2, H3.
Qed.

Lemma get_wallet_transactions_default addr asset g0 :
  contains "MULE" addr = false ->
  contains "HUB" addr = false ->
  contains "STU" addr = false ->
  contains "GOVT" addr = false ->
  get_wallet_transactions addr asset g0 =
  pattern 1 3 (fun _ a => mkTxn addr "UNKNOWN_RECIPIENT" a) 100 1000
    (seed (md5_int addr mod 2 ^ 32)).
Proof.
  intros H1 H2 H3 H4. unfold get_wallet_transactions.
  now rewrite H1, H2, H3, H4.
Qed.

Lemma nonempty_of_length {A} (l : list A) (n : Z) :
  1 <= n -> n <= Z.of_nat (List.length l) -> l <> [].
Proof. intros Hn Hl ->. cbn in Hl. lia. Qed.

(** In each branch: the count drawn, and a property of every
    transaction that holds for all amounts within the branch's bounds. *)
Ltac branch_facts P :=
  match goal with
  | |- context [pattern ?cmin ?cmax ?mk ?lo ?hi ?g] =>
    let Hlen := fresh "Hlen" in
    let Hall := fresh "Hall" in
    pose proof (pattern_length cmin cmax mk lo hi g ltac:(lia)) as Hlen;
    assert (Hall : Forall P (fst (pattern cmin cmax mk lo hi g)))
      by (apply pattern_Forall; [lia | cbn; intros; auto with zarith]);
    set (txns := fst (pattern cmin cmax mk lo hi g)) in *
  end.

(** C6. The simulator is deterministic: two calls of
    [get_wallet_transactions] with the same address return the same
    list of transactions, whatever the global generator's state is at
    either call, because the generator is re-seeded from the digest of
    the address; the generator is also left in the same state. *)
Theorem get_wallet_transactions_deterministic addr asset (g1 g2 : rng_state) :
  get_wallet_transactions addr asset g1 = get_wallet_transactions addr asset g2.
Proof. unfold get_wallet_transactions. reflexivity. Qed.

(** C8. The transactions depend on the address only: for any two
    [asset_id] values (and any generator states) the two calls return
    the same list. *)
Theorem get_wallet_transactions_ignores_asset addr asset1 asset2 (g1 g2 : rng_state) :
  fst (get_wallet_transactions addr asset1 g1) =
  fst (get_wallet_transactions addr asset2 g2).
Proof. unfold get_wallet_transactions. reflexivity. Qed.

(** C9. For every address the simulator returns a non-empty list of at
    most 60 transactions; every amount lies in [100, 5000] and every
    transaction has the address as its sender or its receiver. *)
Theorem get_wallet_transactions_bounds addr asset (g : rng_state) :
  fst (get_wallet_transactions addr asset g) <> [] /\
  Z.of_nat (List.length (fst (get_wallet_transactions addr asset g))) <= 60 /\
  Forall (fun t => 100 <= amount t <= 5000 /\
                   (sender t = addr \/ receiver t = addr))
         (fst (get_wallet_transactions addr asset g)).
Proof.
  unfold get_wallet_transactions.
  destruct (contains "MULE" addr);
    [|destruct (contains "HUB" addr);
      [|destruct (contains "STU" addr);
        [|destruct (contains "GOVT" addr)]]];
    branch_facts (fun t => 100 <= amount t <= 5000 /\
                           (sender t = addr \/ receiver t = addr));
    (split; [eapply nonempty_of_length; [|exact (proj1 Hlen)]; lia
            |split; [lia | exact Hall]]).
Qed.

End SimulatorBranches.

(** ** Degrees of the generated transactions *)

Lemma in_degree_all txns addr :
  Forall (fun t => receiver t = addr) txns ->
  in_degree txns addr = Z.of_nat (List.length txns).
Proof.
  intros H. unfold in_degree. rewrite filter_all; [reflexivity|].
  eapply Forall_impl; [|exact H]. cbn. intros t ->. apply String.eqb_refl.
Qed.

Lemma out_degree_all txns addr :
  Forall (fun t => sender t = addr) txns ->
  out_degree txns addr = Z.of_nat (List.length txns).
Proof.
  intros H. unfold out_degree. rewrite filter_all; [reflexivity|].
  eapply Forall_impl; [|exact H]. cbn. intros t ->. apply String.eqb_refl.
Qed.

Lemma out_degree_none txns addr :
  Forall (fun t => String.eqb (sender t) addr = false) txns ->
  out_degree txns addr = 0.
Proof.
  intros H. unfold out_degree. now rewrite filter_none.
Qed.

(** Without outbound transactions no division takes place: the average
    is the integer 0 and the score is 0.1. *)
Lemma extract_features_no_outgoing txns addr :
  out_degree txns addr = 0 ->
  extract_features txns addr =
  Ok (mkFeatures (in_degree txns addr) 0 (total_outgoing txns addr)
        (PyInt 0) lit_0_1 30).
Proof.
  intros H. unfold extract_features, average, structuring. rewrite H.
  reflexivity.
Qed.

Section StudentAndUnknown.

Context {R : PyRandom}.

(** C3 (amended). For every address that contains "STU" and neither
    "MULE" nor "HUB" (the two patterns tested before it), [in_degree]
    equals the number of generated transactions, every sender is
    "GOVT_SCHOLARSHIP_DEPT", [out_degree] is 0, so [avg_amount] is 0 and
    [structuring_score] is 0.1. *)
Theorem student_profile_of_stu addr asset (g : rng_state) :
  contains "STU" addr = true ->
  contains "MULE" addr = false ->
  contains "HUB" addr = false ->
  student_profile addr asset g.
Proof.
  intros Hstu Hmule Hhub. unfold student_profile.
  rewrite (get_wallet_transactions_stu addr asset g Hmule Hhub Hstu).
  set (p := pattern 1 5 _ 1000 5000 _).
  assert (Hall : Forall (fun t => sender t = "GOVT_SCHOLARSHIP_DEPT" /\
                                  receiver t = addr) (fst p)).
  { apply pattern_Forall; [lia|]. cbn. auto. }
  assert (Hin : in_degree (fst p) addr = Z.of_nat (List.length (fst p))).
  { apply in_degree_all. eapply Forall_impl; [|exact Hall]. cbn. tauto. }
  assert (Hout : out_degree (fst p) addr = 0).
  { apply out_degree_none. eapply Forall_impl; [|exact Hall].
    cbn. intros t [-> _]. now apply (contains_neq "STU"). }
  split; [exact Hin|]. split.
  - eapply Forall_impl; [|exact Hall]. cbn. tauto.
  - eexists. split; [apply extract_features_no_outgoing; exact Hout|].
    cbn. auto.
Qed.

(** C10. For the address "UNKNOWN_RECIPIENT" the default branch is
    taken, every generated transaction has the address both as sender
    and as receiver, and so [in_degree] and [out_degree] both equal the
    number of transactions (of which there is at least one). *)
Theorem unknown_recipient_self_transfers asset (g : rng_state) :
  Forall (fun t => sender t = "UNKNOWN_RECIPIENT" /\
                   receiver t = "UNKNOWN_RECIPIENT")
         (fst (get_wallet_transactions "UNKNOWN_RECIPIENT" asset g)) /\
  in_degree (fst (get_wallet_transactions "UNKNOWN_RECIPIENT" asset g))
            "UNKNOWN_RECIPIENT" =
  Z.of_nat (List.length (fst (get_wallet_transactions "UNKNOWN_RECIPIENT" asset g))) /\
  out_degree (fst (get_wallet_transactions "UNKNOWN_RECIPIENT" asset g))
             "UNKNOWN_RECIPIENT" =
  Z.of_nat (List.length (fst (get_wallet_transactions "UNKNOWN_RECIPIENT" asset g))) /\
  1 <= Z.of_nat (List.length (fst (get_wallet_transactions "UNKNOWN_RECIPIENT" asset g))).
Proof.
  rewrite (get_wallet_transactions_default "UNKNOWN_RECIPIENT" asset g)
    by reflexivity.
  set (p := pattern 1 3 _ 100 1000 _).
  assert (Hall : Forall (fun t => sender t = "UNKNOWN_RECIPIENT" /\
                                  receiver t = "UNKNOWN_RECIPIENT") (fst p)).
  { apply pattern_Forall; [lia|]. cbn. auto. }
  split; [exact Hall|]. split; [|split].
  - apply in_degree_all. eapply Forall_impl; [|exact Hall]. cbn. tauto.
  - apply out_degree_all. eapply Forall_impl; [|exact Hall]. cbn. tauto.
  - apply (pattern_length 1 3). lia.
Qed.

End StudentAndUnknown.

(** C3, witness: the address "STU_0". *)
Lemma student_profile_of_stu_witness :
  contains "STU" "STU_0" = true /\
  contains "MULE" "STU_0" = false /\
  contains "HUB" "STU_0" = false /\
  student_profile (R := Reference.lcg) "STU_0" 12345 0.
Proof.
  split; [reflexivity|]. split; [reflexivity|]. split; [reflexivity|].
  apply (student_profile_of_stu (R := Reference.lcg) "STU_0" 12345 0);
    reflexivity.
Defined.

(** C3, as stated, fails: "MULE_STU" contains "STU", but the "MULE"
    test comes first, so every transaction is sent by the wallet itself
    to the hub collector. *)
Lemma student_profile_fails_for_mule_stu :
  contains "STU" "MULE_STU" = true /\
  ~ student_profile (R := Reference.lcg) "MULE_STU" 12345 0.
Proof.
  split; [reflexivity|].
  unfold student_profile. intros (_ & Hsender & _).
  rewrite (get_wallet_transactions_mule (R := Reference.lcg)) in Hsender
    by reflexivity.
  match type of Hsender with
  | Forall _ (fst (pattern ?cmin ?cmax ?mk ?lo ?hi ?g')) =>
    pose proof (pattern_length cmin cmax mk lo hi g' ltac:(lia)) as Hlen;
    assert (Hall : Forall (fun t => sender t = "MULE_STU")
                     (fst (pattern cmin cmax mk lo hi g')))
      by (apply pattern_Forall; [lia | cbn; auto])
  end.
  destruct (fst (pattern _ _ _ _ _ _)) as [|t rest]; [cbn in Hlen; lia|].
  inversion Hsender as [|? ? Ht _]. inversion Hall as [|? ? Ht' _].
  rewrite Ht' in Ht. discriminate Ht.
Qed.

(** ** Float comparisons *)

Lemma SFcompare_antisym (x y : float) :
  SFcompare y x = option_map CompOpp (SFcompare x y).
Proof.
  destruct x as [sx|sx| |sx mx ex], y as [sy|sy| |sy my ey]; cbn;
    try reflexivity;
    try (destruct sx; reflexivity);
    try (destruct sy; reflexivity);
    try (destruct sx, sy; reflexivity).
  destruct sx, sy; try reflexivity;
    rewrite (Z.compare_antisym ex ey);
    destruct (ex ?= ey); cbn; try reflexivity;
    change (Pos.compare_cont Eq my mx) with (Pos.compare my mx);
    change (Pos.compare_cont Eq mx my) with (Pos.compare mx my);
    rewrite (Pos.compare_antisym mx my);
    destruct (Pos.compare mx my); reflexivity.
Qed.

(** [x <= y] excludes [x > y]. *)
Lemma leb_not_gtb (x y : float) : leb x y = true -> gtb x y = false.
Proof.
  unfold leb, gtb, SFleb, SFltb. rewrite (SFcompare_antisym x y).
  destruct (SFcompare x y) as [[]|]; cbn; congruence.
Qed.

(** [x == y] implies [x <= y] and excludes [x < y]. *)
Lemma eqb_leb (x y : float) : eqb x y = true -> leb x y = true.
Proof.
  unfold eqb, leb, SFeqb, SFleb.
  destruct (SFcompare x y) as [[]|]; congruence.
Qed.

Lemma eqb_not_ltb (x y : float) : eqb x y = true -> ltb x y = false.
Proof.
  unfold eqb, ltb, SFeqb, SFltb.
  destruct (SFcompare x y) as [[]|]; congruence.
Qed.

(** Below the lower threshold is below the upper one. *)
Lemma leb_0_60_0_85 (x : float) : leb x lit_0_60 = true -> leb x lit_0_85 = true.
Proof.
  unfold leb, SFleb, lit_0_60, lit_0_85.
  destruct x as [s|s| |s m e]; cbn [SFcompare].
  - destruct s; intros H; exact H.
  - destruct s; intros H; exact H.
  - intros H; exact H.
  - destruct s; [reflexivity|].
    destruct (e ?= -53); try (intros H; exact H).
    rewrite !Pos.compare_cont_spec. unfold Pos.switch_Eq.
    destruct (Pos.compare_spec m 5404319552844595) as [Hm|Hm|Hm];
      destruct (Pos.compare_spec m 7656119366529843) as [Hm'|Hm'|Hm'];
      intros Hle; try reflexivity; try discriminate Hle.
    + subst m. vm_compute in Hm'. discriminate Hm'.
    + pose proof (Pos.lt_trans _ _ _ Hm' Hm) as Habs.
      vm_compute in Habs. discriminate Habs.
Qed.

(** ** The structuring score *)

Lemma num_eq_not_lt (x y : PyNum) : num_eq x y = true -> num_lt x y = false.
Proof.
  destruct x as [a|a], y as [b|b]; cbn; try apply eqb_not_ltb.
  intros H. apply Z.eqb_eq in H. apply Z.ltb_ge. rewrite H. apply Z.le_refl.
Qed.

Lemma extract_features_fields txns addr f :
  extract_features txns addr = Ok f ->
  in_d f = in_degree txns addr /\
  out_d f = out_degree txns addr /\
  total_amount f = total_outgoing txns addr /\
  average (total_amount f) (out_d f) = Ok (avg_amount f) /\
  structuring_score f = structuring (out_d f) (avg_amount f) /\
  account_age f = 30.
Proof.
  unfold extract_features.
  destruct (average (total_outgoing txns addr) (out_degree txns addr))
    as [avg|e] eqn:Havg; [|discriminate].
  intros [= <-]. cbn. auto 10.
Qed.

(** ** The decision policy *)

Section Decision.

Context {R : PyRandom}.

(** The three cases of step E, by the two tests the code makes. *)
Lemma determine_action_cases (risk : float) data (w : World) :
  determine_action risk data w =
  if gtb risk lit_0_85 then
    (Ok "FRAUD_HIGH",
     mkWorld (rng w)
       (background_tasks w ++ [mkTask (wallet_address data) (asset_id data)])
       (inference_log w))
  else if gtb risk lit_0_60 then (Ok "SUSPICIOUS_REVIEW", w)
  else (Ok "CLEAR", w).
Proof.
  unfold determine_action.
  destruct (gtb risk lit_0_85); [reflexivity|].
  destruct (gtb risk lit_0_60); reflexivity.
Qed.

(** C4. The decision is a function of the risk score alone, with strict
    thresholds: [risk > 0.85] gives FRAUD_HIGH and schedules the freeze
    task; [0.60 < risk <= 0.85] gives SUSPICIOUS_REVIEW; [risk <= 0.60]
    gives CLEAR; in particular [risk == 0.85] gives SUSPICIOUS_REVIEW
    and [risk == 0.60] gives CLEAR.  The freeze task is scheduled only
    when [risk > 0.85]. *)
Theorem decision_thresholds (risk : float) data (w : World) :
  (gtb risk lit_0_85 = true ->
   determine_action risk data w =
   (Ok "FRAUD_HIGH",
    mkWorld (rng w)
      (background_tasks w ++ [mkTask (wallet_address data) (asset_id data)])
      (inference_log w))) /\
  (gtb risk lit_0_60 = true /\ leb risk lit_0_85 = true ->
   determine_action risk data w = (Ok "SUSPICIOUS_REVIEW", w)) /\
  (leb risk lit_0_60 = true ->
   determine_action risk data w = (Ok "CLEAR", w)) /\
  (eqb risk lit_0_85 = true ->
   determine_action risk data w = (Ok "SUSPICIOUS_REVIEW", w)) /\
  (eqb risk lit_0_60 = true ->
   determine_action risk data w = (Ok "CLEAR", w)) /\
  (forall data' w',
     fst (determine_action risk data' w') = fst (determine_action risk data w)) /\
  (background_tasks (snd (determine_action risk data w)) <> background_tasks w ->
   gtb risk lit_0_85 = true).
Proof.
  assert (Hclear : leb risk lit_0_60 = true ->
                   determine_action risk data w = (Ok "CLEAR", w)).
  { intros H. rewrite determine_action_cases.
    rewrite (leb_not_gtb _ _ (leb_0_60_0_85 _ H)).
    now rewrite (leb_not_gtb _ _ H). }
  assert (Hreview : gtb risk lit_0_60 = true /\ leb risk lit_0_85 = true ->
                    determine_action risk data w = (Ok "SUSPICIOUS_REVIEW", w)).
  { intros [Hlo Hhi]. rewrite determine_action_cases.
    now rewrite (leb_not_gtb _ _ Hhi), Hlo. }
  split; [|split; [exact Hreview|split; [exact Hclear|split; [|split; [|split]]]]].
  - intros H. rewrite determine_action_cases. now rewrite H.
  - intros H. apply Hreview. split; [|now apply eqb_leb].
    revert H. unfold eqb, gtb, SFeqb, SFltb, lit_0_85, lit_0_60.
    destruct risk as [s|s| |s m e]; cbn [SFcompare];
      try discriminate; try (destruct s; discriminate).
    destruct s; [discriminate|].
    destruct (e ?= -53) eqn:He; try discriminate.
    rewrite Pos.compare_cont_spec. unfold Pos.switch_Eq.
    destruct (Pos.compare_spec m 7656119366529843) as [->| |]; try discriminate.
    intros _. apply Z.compare_eq in He. subst e. vm_compute. reflexivity.
  - intros H. apply Hclear. now apply eqb_leb.
  - intros data' w'. rewrite !determine_action_cases.
    destruct (gtb risk lit_0_85); [reflexivity|].
    destruct (gtb risk lit_0_60); reflexivity.
  - rewrite determine_action_cases.
    destruct (gtb risk lit_0_85); [reflexivity|].
    destruct (gtb risk lit_0_60); cbn; congruence.
Qed.

End Decision.

(** C4, witness: a score of 0.9, and the two thresholds themselves. *)
Lemma decision_thresholds_witness :
  gtb (literal 9 10) lit_0_85 = true /\
  determine_action (R := Reference.lcg) (literal 9 10)
    (mkFraudCheck "MULE_0" 12345) Reference.world0 =
  (Ok "FRAUD_HIGH",
   mkWorld (R := Reference.lcg) 0 [mkTask "MULE_0" 12345] []) /\
  determine_action (R := Reference.lcg) lit_0_85
    (mkFraudCheck "MULE_0" 12345) Reference.world0 =
  (Ok "SUSPICIOUS_REVIEW", Reference.world0) /\
  determine_action (R := Reference.lcg) lit_0_60
    (mkFraudCheck "MULE_0" 12345) Reference.world0 =
  (Ok "CLEAR", Reference.world0).
Proof.
  split; [vm_compute; reflexivity|]. split; [|split].
  - apply (proj1 (decision_thresholds (R := Reference.lcg) (literal 9 10)
                    (mkFraudCheck "MULE_0" 12345) Reference.world0)).
    vm_compute. reflexivity.
  - apply (decision_thresholds (R := Reference.lcg) lit_0_85
             (mkFraudCheck "MULE_0" 12345) Reference.world0).
    vm_compute. reflexivity.
  - apply (decision_thresholds (R := Reference.lcg) lit_0_60
             (mkFraudCheck "MULE_0" 12345) Reference.world0).
    vm_compute. reflexivity.
Defined.

(** ** The handler's error paths *)

Section ErrorPaths.

Context {R : PyRandom} {N : PyNumeric}.

(** Step B raises 503 when the encoder is absent and 404 when the
    encoder raises [ValueError]; it leaves the world as it is. *)
Lemma resolve_wallet_encoder_absent state data (w : World) :
  encoder state = None ->
  resolve_wallet state data w =
  (Raise (HTTPException 503 (Msg "Encoder not loaded. Model not ready.")), w).
Proof. intros H. unfold resolve_wallet. rewrite H. reflexivity. Qed.

Lemma resolve_wallet_unknown state enc data (w : World) :
  encoder state = Some enc ->
  transform enc [wallet_address data] = Raise ValueError ->
  resolve_wallet state data w =
  (Raise (HTTPException 404
            (Msg "Wallet address not found in historical graph data.")), w).
Proof.
  intros Henc Htr. unfold resolve_wallet, try_except, bind, lift.
  rewrite Henc, Htr. reflexivity.
Qed.

(** Whatever step B raises reaches the outer [except Exception] clause,
    which raises a 500 in its place; the model is not run. *)
Lemma analyze_wallet_resolve_raises state data (w : World) e :
  (forall w', resolve_wallet state data w' = (Raise e, w')) ->
  fst (analyze_wallet state data w) = Raise (HTTPException 500 (StrOf e)) /\
  inference_log (snd (analyze_wallet state data w)) = inference_log w /\
  background_tasks (snd (analyze_wallet state data w)) = background_tasks w.
Proof.
  intros Hres. unfold analyze_wallet, try_except, bind, fetch_transactions.
  destruct (get_wallet_transactions (wallet_address data) (asset_id data) (rng w))
    as [txns g].
  rewrite Hres. cbn. auto.
Qed.

(** C1 (what the code does). When the encoder's [transform] raises
    [ValueError] on the wallet address, step B raises the 404, but the
    enclosing [except Exception] catches it: the response has status
    500, not 404.  Model inference is not attempted. *)
Theorem analyze_wallet_unknown_wallet_is_500 state enc data (w : World) :
  encoder state = Some enc ->
  transform enc [wallet_address data] = Raise ValueError ->
  http_status (fst (analyze_wallet state data w)) = 500 /\
  fst (analyze_wallet state data w) =
  Raise (HTTPException 500
           (StrOf (HTTPException 404
                     (Msg "Wallet address not found in historical graph data.")))) /\
  inference_log (snd (analyze_wallet state data w)) = inference_log w.
Proof.
  intros Henc Htr.
  destruct (analyze_wallet_resolve_raises state data w
              (HTTPException 404
                 (Msg "Wallet address not found in historical graph data.")))
    as (Hr & Hlog & _).
  { intros w'. now apply (resolve_wallet_unknown state enc). }
  rewrite Hr. cbn. auto.
Qed.

(** C2 (what the code does). When the encoder is absent, step B raises
    the 503, but the enclosing [except Exception] catches it: the
    response has status 500, not 503. *)
Theorem analyze_wallet_encoder_absent_is_500 state data (w : World) :
  encoder state = None ->
  http_status (fst (analyze_wallet state data w)) = 500 /\
  fst (analyze_wallet state data w) =
  Raise (HTTPException 500
           (StrOf (HTTPException 503
                     (Msg "Encoder not loaded. Model not ready.")))).
Proof.
  intros Henc.
  destruct (analyze_wallet_resolve_raises state data w
              (HTTPException 503 (Msg "Encoder not loaded. Model not ready.")))
    as (Hr & _).
  { intros w'. now apply resolve_wallet_encoder_absent. }
  rewrite Hr. cbn. auto.
Qed.

(** A returned body repeats the request's address and asset, carries
    one of the three decisions, and its score is the rounding to four
    places of the entry read from the model's output. *)
Lemma analyze_wallet_ok_fields state data (w : World) resp :
  fst (analyze_wallet state data w) = Ok resp ->
  address resp = wallet_address data /\
  monitored_asset resp = asset_id data /\
  (decision resp = "FRAUD_HIGH" \/ decision resp = "SUSPICIOUS_REVIEW" \/
   decision resp = "CLEAR") /\
  exists risk, risk_score resp = py_round risk 4.
Proof.
  unfold analyze_wallet, try_except, bind, fetch_transactions, lift.
  destruct (get_wallet_transactions _ _ _) as [txns g].
  destruct (resolve_wallet state data _) as [[idx|e] w1]; [|discriminate].
  destruct (extract_features txns (wallet_address data)) as [f|e]; [|discriminate].
  destruct (run_inference state _ _ w1) as [[risk|e] w2]; [|discriminate].
  rewrite determine_action_cases.
  destruct (gtb risk lit_0_85); [|destruct (gtb risk lit_0_60)];
    cbn; intros [= <-]; cbn; eauto 10.
Qed.

End ErrorPaths.

(** C1, witness: an encoder that knows "STU_0" and "MULE_0" only, and
    the address "UNKNOWN_WALLET_XYZ". *)
Lemma analyze_wallet_unknown_wallet_is_500_witness :
  http_status
    (fst (analyze_wallet (R := Reference.lcg) (N := Reference.plain_numeric)
            (mkAppState (Some (Reference.encoder_of ["STU_0"; "MULE_0"]))
                        (Reference.constant_model lit_0_1))
            (mkFraudCheck "UNKNOWN_WALLET_XYZ" 12345) Reference.world0)) = 500.
Proof.
  apply (analyze_wallet_unknown_wallet_is_500
           (R := Reference.lcg) (N := Reference.plain_numeric)
           (mkAppState (Some (Reference.encoder_of ["STU_0"; "MULE_0"]))
                       (Reference.constant_model lit_0_1))
           (Reference.encoder_of ["STU_0"; "MULE_0"])
           (mkFraudCheck "UNKNOWN_WALLET_XYZ" 12345) Reference.world0).
  - reflexivity.
  - vm_compute. reflexivity.
Defined.

(** C2, witness: no encoder, and the address "STU_0". *)
Lemma analyze_wallet_encoder_absent_is_500_witness :
  http_status
    (fst (analyze_wallet (R := Reference.lcg) (N := Reference.plain_numeric)
            (mkAppState None (Reference.constant_model lit_0_1))
            (mkFraudCheck "STU_0" 12345) Reference.world0)) = 500.
Proof.
  apply (analyze_wallet_encoder_absent_is_500
           (R := Reference.lcg) (N := Reference.plain_numeric)
           (mkAppState None (Reference.constant_model lit_0_1))
           (mkFraudCheck "STU_0" 12345) Reference.world0).
  reflexivity.
Defined.

(** ** Concrete runs on the reference instance *)

(** A known mule wallet with a model that answers 0.9: the body is
    returned, the decision is FRAUD_HIGH, one freeze task is scheduled
    and the model was run once. *)
Example analyze_wallet_mule_0_run :
  let r := analyze_wallet (R := Reference.lcg) (N := Reference.plain_numeric)
             (mkAppState (Some (Reference.encoder_of ["STU_0"; "MULE_0"]))
                         (Reference.constant_model (literal 9 10)))
             (mkFraudCheck "MULE_0" 12345) Reference.world0 in
  http_status (fst r) = 200 /\
  option_map decision (match fst r with Ok b => Some b | Raise _ => None end)
  = Some "FRAUD_HIGH" /\
  background_tasks (snd r) = [mkTask "MULE_0" 12345] /\
  List.length (inference_log (snd r)) = 1%nat.
Proof. vm_compute. auto. Qed.

(** A model whose output is NaN: the handler returns a body with the
    decision CLEAR, which the JSON encoder then refuses. *)
Example analyze_wallet_nan_run :
  let r := analyze_wallet (R := Reference.lcg) (N := Reference.plain_numeric)
             (mkAppState (Some (Reference.encoder_of ["STU_0"; "MULE_0"]))
                         (Reference.constant_model S754_nan))
             (mkFraudCheck "STU_0" 12345) Reference.world0 in
  option_map decision (match fst r with Ok b => Some b | Raise _ => None end)
  = Some "CLEAR" /\
  http_status (fst r) = 500.
Proof. vm_compute. auto. Qed.

(** * Further properties of the simulator *)

Lemma in_degree_none txns addr :
  Forall (fun t => String.eqb (receiver t) addr = false) txns ->
  in_degree txns addr = 0.
Proof.
  intros H. unfold in_degree. now rewrite filter_none.
Qed.

(** Transactions all sent by the address to somebody else, and
    transactions all received by it from somebody else. *)
Lemma degrees_of_outgoing txns addr :
  Forall (fun t => sender t = addr /\ String.eqb (receiver t) addr = false) txns ->
  out_degree txns addr = Z.of_nat (List.length txns) /\ in_degree txns addr = 0.
Proof.
  intros H. split.
  - apply out_degree_all. eapply Forall_impl; [|exact H]. cbn. tauto.
  - apply in_degree_none. eapply Forall_impl; [|exact H]. cbn. tauto.
Qed.

Lemma degrees_of_incoming txns addr :
  Forall (fun t => receiver t = addr /\ String.eqb (sender t) addr = false) txns ->
  in_degree txns addr = Z.of_nat (List.length txns) /\ out_degree txns addr = 0.
Proof.
  intros H. split.
  - apply in_degree_all. eapply Forall_impl; [|exact H]. cbn. tauto.
  - apply out_degree_none. eapply Forall_impl; [|exact H]. cbn. tauto.
Qed.

Lemma contains_neq_sym (pat s s' : string) :
  contains pat s = true -> contains pat s' = false -> String.eqb s s' = false.
Proof.
  intros Hs Hs'. destruct (String.eqb_spec s s') as [->|]; congruence.
Qed.

Section SimulatorPositions.

Context {R : PyRandom}.

(** The element at position [i] is built from the index [start + i] and
    an amount within the bounds. *)
Lemma comprehension_nth mk lo hi n start g i t :
  lo <= hi ->
  nth_error (fst (comprehension mk lo hi n start g)) i = Some t ->
  exists a, lo <= a <= hi /\ t = mk (start + i)%nat a.
Proof.
  intros Hb. revert start g i.
  induction n as [|n IH]; intros start g i; cbn.
  - destruct i; discriminate.
  - pose proof (randint_range lo hi g Hb) as Ha.
    destruct (randint lo hi g) as [a g1].
    specialize (IH (S start) g1).
    destruct (comprehension mk lo hi n (S start) g1) as [rest g2].
    cbn in *. destruct i as [|i]; cbn.
    + intros [= <-]. exists a. now rewrite Nat.add_0_r.
    + intros Hi. destruct (IH i Hi) as (a' & Ha' & ->).
      exists a'. split; [exact Ha'|]. f_equal. lia.
Qed.

Lemma pattern_nth cmin cmax mk lo hi g i t :
  lo <= hi ->
  nth_error (fst (pattern cmin cmax mk lo hi g)) i = Some t ->
  exists a, lo <= a <= hi /\ t = mk i a.
Proof.
  intros Hb. unfold pattern.
  destruct (randint cmin cmax g) as [n g1].
  intros H. exact (comprehension_nth mk lo hi _ 0 g1 i t Hb H).
Qed.

Lemma get_wallet_transactions_hub addr asset g0 :
  contains "MULE" addr = false ->
  contains "HUB" addr = true ->
  get_wallet_transactions addr asset g0 =
  pattern 20 40
    (fun i a => mkTxn ("MULE_" ++ str_nat (Nat.modulo i 10)) addr a) 100 500
    (seed (md5_int addr mod 2 ^ 32)).
Proof.
  intros H1 H2. unfold get_wallet_transactions. now rewrite H1, H2.
Qed.

Lemma get_wallet_transactions_govt addr asset g0 :
  contains "MULE" addr = false ->
  contains "HUB" addr = false ->
  contains "STU" addr = false ->
  contains "GOVT" addr = true ->
  get_wallet_transactions addr asset g0 =
  pattern 40 60
    (fun i a => mkTxn addr ("STU_" ++ str_nat (Nat.modulo i 50)) a) 1000 5000
    (seed (md5_int addr mod 2 ^ 32)).
Proof.
  intros H1 H2 H3 H4. unfold get_wallet_transactions.
  now rewrite H1, H2, H3, H4.
Qed.

(** The senders of the hub branch and the receivers of the government
    branch carry the pattern that the branch before them tests for. *)
Lemma contains_MULE_sender (k : nat) : contains "MULE" ("MULE_" ++ str_nat k) = true.
Proof. reflexivity. Qed.

Lemma contains_STU_receiver (k : nat) : contains "STU" ("STU_" ++ str_nat k) = true.
Proof. reflexivity. Qed.

(** Mule wallets: 15 to 30 transfers of 100 to 500, all from the wallet
    to "HUB_COLLECTOR_01"; [out_degree] is their number and [in_degree]
    is 0. *)
Theorem mule_profile addr asset (g : rng_state) :
  contains "MULE" addr = true ->
  15 <= Z.of_nat (List.length (fst (get_wallet_transactions addr asset g))) <= 30 /\
  Forall (fun t => sender t = addr /\ receiver t = "HUB_COLLECTOR_01" /\
                   100 <= amount t <= 500)
         (fst (get_wallet_transactions addr asset g)) /\
  out_degree (fst (get_wallet_transactions addr asset g)) addr =
  Z.of_nat (List.length (fst (get_wallet_transactions addr asset g))) /\
  in_degree (fst (get_wallet_transactions addr asset g)) addr = 0.
Proof.
  intros Hm. rewrite (get_wallet_transactions_mule addr asset g Hm).
  set (p := pattern 15 30 _ 100 500 _).
  assert (Hall : Forall (fun t => sender t = addr /\
                                  receiver t = "HUB_COLLECTOR_01" /\
                                  100 <= amount t <= 500) (fst p)).
  { apply pattern_Forall; [lia|]. cbn. auto. }
  split; [apply pattern_length; lia|]. split; [exact Hall|].
  apply degrees_of_outgoing. eapply Forall_impl; [|exact Hall].
  cbn. intros t (Hs & -> & _). split; [exact Hs|].
  now apply (contains_neq "MULE").
Qed.

(** Hub wallets: 20 to 40 transfers of 100 to 500, all to the wallet;
    the sender at position [i] is "MULE_" followed by [i mod 10];
    [in_degree] is their number, [out_degree] is 0, and the features are
    extracted without a division. *)
Theorem hub_profile addr asset (g : rng_state) :
  contains "MULE" addr = false ->
  contains "HUB" addr = true ->
  20 <= Z.of_nat (List.length (fst (get_wallet_transactions addr asset g))) <= 40 /\
  (forall i t,
     nth_error (fst (get_wallet_transactions addr asset g)) i = Some t ->
     sender t = "MULE_" ++ str_nat (Nat.modulo i 10) /\
     receiver t = addr /\ 100 <= amount t <= 500) /\
  in_degree (fst (get_wallet_transactions addr asset g)) addr =
  Z.of_nat (List.length (fst (get_wallet_transactions addr asset g))) /\
  out_degree (fst (get_wallet_transactions addr asset g)) addr = 0 /\
  extract_features (fst (get_wallet_transactions addr asset g)) addr =
  Ok (mkFeatures
        (Z.of_nat (List.length (fst (get_wallet_transactions addr asset g))))
        0 0 (PyInt 0) lit_0_1 30).
Proof.
  intros Hm Hh. rewrite (get_wallet_transactions_hub addr asset g Hm Hh).
  set (p := pattern 20 40 _ 100 500 _).
  assert (Hnth : forall i t, nth_error (fst p) i = Some t ->
                 sender t = "MULE_" ++ str_nat (Nat.modulo i 10) /\
                 receiver t = addr /\ 100 <= amount t <= 500).
  { intros i t Hi. apply pattern_nth in Hi; [|lia].
    destruct Hi as (a & Ha & ->). cbn. auto. }
  assert (Hall : Forall (fun t => receiver t = addr /\
                                  String.eqb (sender t) addr = false) (fst p)).
  { apply Forall_forall. intros t Hin.
    destruct (In_nth_error _ _ Hin) as [i Hi].
    destruct (Hnth i t Hi) as (Hs & Hr & _). split; [exact Hr|].
    rewrite Hs.
    apply (contains_neq_sym "MULE"); [apply contains_MULE_sender|exact Hm]. }
  destruct (degrees_of_incoming _ _ Hall) as [Hin Hout].
  split; [apply pattern_length; lia|]. split; [exact Hnth|].
  split; [exact Hin|]. split; [exact Hout|].
  rewrite (extract_features_no_outgoing _ _ Hout), Hin.
  unfold total_outgoing, out_degree in *.
  destruct (filter _ (fst p)); [reflexivity|discriminate Hout].
Qed.

(** Government wallets: 40 to 60 transfers of 1000 to 5000, all from
    the wallet; the receiver at position [i] is "STU_" followed by
    [i mod 50]; [out_degree] is their number and [in_degree] is 0. *)
Theorem govt_profile addr asset (g : rng_state) :
  contains "MULE" addr = false ->
  contains "HUB" addr = false ->
  contains "STU" addr = false ->
  contains "GOVT" addr = true ->
  40 <= Z.of_nat (List.length (fst (get_wallet_transactions addr asset g))) <= 60 /\
  (forall i t,
     nth_error (fst (get_wallet_transactions addr asset g)) i = Some t ->
     sender t = addr /\
     receiver t = "STU_" ++ str_nat (Nat.modulo i 50) /\
     1000 <= amount t <= 5000) /\
  out_degree (fst (get_wallet_transactions addr asset g)) addr =
  Z.of_nat (List.length (fst (get_wallet_transactions addr asset g))) /\
  in_degree (fst (get_wallet_transactions addr asset g)) addr = 0.
Proof.
  intros Hm Hh Hs Hg.
  rewrite (get_wallet_transactions_govt addr asset g Hm Hh Hs Hg).
  set (p := pattern 40 60 _ 1000 5000 _).
  assert (Hnth : forall i t, nth_error (fst p) i = Some t ->
                 sender t = addr /\
                 receiver t = "STU_" ++ str_nat (Nat.modulo i 50) /\
                 1000 <= amount t <= 5000).
  { intros i t Hi. apply pattern_nth in Hi; [|lia].
    destruct Hi as (a & Ha & ->). cbn. auto. }
  split; [apply pattern_length; lia|]. split; [exact Hnth|].
  apply degrees_of_outgoing. apply Forall_forall. intros t Hin.
  destruct (In_nth_error _ _ Hin) as [i Hi].
  destruct (Hnth i t Hi) as (Hsd & Hr & _). split; [exact Hsd|].
  rewrite Hr.
  apply (contains_neq_sym "STU"); [apply contains_STU_receiver|exact Hs].
Qed.

(** Any other wallet: 1 to 3 transfers of 100 to 1000 from the wallet
    to "UNKNOWN_RECIPIENT"; [out_degree] is their number, and
    [in_degree] is 0 unless the wallet is "UNKNOWN_RECIPIENT" itself. *)
Theorem default_profile addr asset (g : rng_state) :
  contains "MULE" addr = false ->
  contains "HUB" addr = false ->
  contains "STU" addr = false ->
  contains "GOVT" addr = false ->
  1 <= Z.of_nat (List.length (fst (get_wallet_transactions addr asset g))) <= 3 /\
  Forall (fun t => sender t = addr /\ receiver t = "UNKNOWN_RECIPIENT" /\
                   100 <= amount t <= 1000)
         (fst (get_wallet_transactions addr asset g)) /\
  out_degree (fst (get_wallet_transactions addr asset g)) addr =
  Z.of_nat (List.length (fst (get_wallet_transactions addr asset g))) /\
  (addr <> "UNKNOWN_RECIPIENT" ->
   in_degree (fst (get_wallet_transactions addr asset g)) addr = 0).
Proof.
  intros Hm Hh Hs Hg.
  rewrite (get_wallet_transactions_default addr asset g Hm Hh Hs Hg).
  set (p := pattern 1 3 _ 100 1000 _).
  assert (Hall : Forall (fun t => sender t = addr /\
                                  receiver t = "UNKNOWN_RECIPIENT" /\
                                  100 <= amount t <= 1000) (fst p)).
  { apply pattern_Forall; [lia|]. cbn. auto. }
  split; [apply pattern_length; lia|]. split; [exact Hall|]. split.
  - apply out_degree_all. eapply Forall_impl; [|exact Hall]. cbn. tauto.
  - intros Hne. apply in_degree_none. eapply Forall_impl; [|exact Hall].
    cbn. intros t (_ & -> & _). apply String.eqb_neq. congruence.
Qed.

End SimulatorPositions.

(** Witnesses of the four profiles, on the reference generator. *)
Lemma mule_profile_witness :
  contains "MULE" "MULE_0" = true /\
  out_degree (fst (get_wallet_transactions (R := Reference.lcg) "MULE_0" 12345 0))
             "MULE_0" =
  Z.of_nat (List.length
              (fst (get_wallet_transactions (R := Reference.lcg) "MULE_0" 12345 0))).
Proof.
  split; [reflexivity|].
  exact (proj1 (proj2 (proj2
           (mule_profile (R := Reference.lcg) "MULE_0" 12345 0 eq_refl)))).
Defined.

Lemma hub_profile_witness :
  contains "MULE" "HUB_COLLECTOR_01" = false /\
  contains "HUB" "HUB_COLLECTOR_01" = true /\
  out_degree
    (fst (get_wallet_transactions (R := Reference.lcg) "HUB_COLLECTOR_01" 12345 0))
    "HUB_COLLECTOR_01" = 0.
Proof.
  split; [reflexivity|]. split; [reflexivity|].
  exact (proj1 (proj2 (proj2 (proj2
           (hub_profile (R := Reference.lcg) "HUB_COLLECTOR_01" 12345 0
              eq_refl eq_refl))))).
Defined.

Lemma govt_profile_witness :
  contains "MULE" "GOVT_SCHOLARSHIP_DEPT" = false /\
  contains "HUB" "GOVT_SCHOLARSHIP_DEPT" = false /\
  contains "STU" "GOVT_SCHOLARSHIP_DEPT" = false /\
  contains "GOVT" "GOVT_SCHOLARSHIP_DEPT" = true /\
  in_degree
    (fst (get_wallet_transactions (R := Reference.lcg) "GOVT_SCHOLARSHIP_DEPT" 12345 0))
    "GOVT_SCHOLARSHIP_DEPT" = 0.
Proof.
  do 4 (split; [reflexivity|]).
  exact (proj2 (proj2 (proj2
           (govt_profile (R := Reference.lcg) "GOVT_SCHOLARSHIP_DEPT" 12345 0
              eq_refl eq_refl eq_refl eq_refl)))).
Defined.

Lemma default_profile_witness :
  contains "MULE" "UNKNOWN_WALLET_XYZ" = false /\
  contains "HUB" "UNKNOWN_WALLET_XYZ" = false /\
  contains "STU" "UNKNOWN_WALLET_XYZ" = false /\
  contains "GOVT" "UNKNOWN_WALLET_XYZ" = false /\
  1 <= Z.of_nat
         (List.length
            (fst (get_wallet_transactions (R := Reference.lcg)
                    "UNKNOWN_WALLET_XYZ" 12345 0))) <= 3.
Proof.
  do 4 (split; [reflexivity|]).
  exact (proj1 (default_profile (R := Reference.lcg) "UNKNOWN_WALLET_XYZ" 12345 0
                  eq_refl eq_refl eq_refl eq_refl)).
Defined.

Section Exclusive.

Context {R : PyRandom}.

(** For every address other than "UNKNOWN_RECIPIENT" the generated
    transactions flow one way: either all of them are inbound and none
    outbound, or all outbound and none inbound. *)
Theorem degrees_exclusive addr asset (g : rng_state) :
  addr <> "UNKNOWN_RECIPIENT" ->
  (in_degree (fst (get_wallet_transactions addr asset g)) addr =
   Z.of_nat (List.length (fst (get_wallet_transactions addr asset g))) /\
   out_degree (fst (get_wallet_transactions addr asset g)) addr = 0) \/
  (out_degree (fst (get_wallet_transactions addr asset g)) addr =
   Z.of_nat (List.length (fst (get_wallet_transactions addr asset g))) /\
   in_degree (fst (get_wallet_transactions addr asset g)) addr = 0).
Proof.
  intros Hne. unfold get_wallet_transactions.
  destruct (contains "MULE" addr) eqn:Hm;
    [|destruct (contains "HUB" addr) eqn:Hh;
      [|destruct (contains "STU" addr) eqn:Hs;
        [|destruct (contains "GOVT" addr) eqn:Hg]]].
  - right. apply degrees_of_outgoing. apply pattern_Forall; [lia|].
    cbn [sender receiver amount]. intros _ a _. split; [reflexivity|]. now apply (contains_neq "MULE").
  - left. apply degrees_of_incoming. apply pattern_Forall; [lia|].
    cbn [sender receiver amount]. intros i a _. split; [reflexivity|]. now apply (contains_neq_sym "MULE").
  - left. apply degrees_of_incoming. apply pattern_Forall; [lia|].
    cbn [sender receiver amount]. intros _ a _. split; [reflexivity|]. now apply (contains_neq "STU").
  - right. apply degrees_of_outgoing. apply pattern_Forall; [lia|].
    cbn [sender receiver amount]. intros i a _. split; [reflexivity|]. now apply (contains_neq_sym "STU").
  - right. apply degrees_of_outgoing. apply pattern_Forall; [lia|].
    cbn [sender receiver amount]. intros _ a _. split; [reflexivity|].
    apply String.eqb_neq. congruence.
Qed.

End Exclusive.

Lemma degrees_exclusive_witness :
  (in_degree (fst (get_wallet_transactions (R := Reference.lcg) "MULE_0" 12345 0))
             "MULE_0" =
   Z.of_nat (List.length
               (fst (get_wallet_transactions (R := Reference.lcg) "MULE_0" 12345 0))) /\
   out_degree (fst (get_wallet_transactions (R := Reference.lcg) "MULE_0" 12345 0))
              "MULE_0" = 0) \/
  (out_degree (fst (get_wallet_transactions (R := Reference.lcg) "MULE_0" 12345 0))
              "MULE_0" =
   Z.of_nat (List.length
               (fst (get_wallet_transactions (R := Reference.lcg) "MULE_0" 12345 0))) /\
   in_degree (fst (get_wallet_transactions (R := Reference.lcg) "MULE_0" 12345 0))
             "MULE_0" = 0).
Proof.
  apply (degrees_exclusive (R := Reference.lcg) "MULE_0" 12345 0).
  discriminate.
Defined.

(** * Further properties of the feature extraction *)

Lemma fold_left_Zadd (l : list Z) (acc : Z) :
  fold_left Z.add l acc = acc + fold_left Z.add l 0.
Proof.
  revert acc. induction l as [|x l IH]; intros acc; cbn; [lia|].
  rewrite (IH (acc + x)), (IH x). lia.
Qed.

Lemma total_outgoing_cons t txns addr :
  total_outgoing (t :: txns) addr =
  (if String.eqb (sender t) addr then amount t else 0) + total_outgoing txns addr.
Proof.
  unfold total_outgoing. cbn.
  destruct (String.eqb (sender t) addr); cbn; [|lia].
  now rewrite fold_left_Zadd.
Qed.

Lemma out_degree_cons t txns addr :
  out_degree (t :: txns) addr =
  (if String.eqb (sender t) addr then 1 else 0) + out_degree txns addr.
Proof.
  unfold out_degree. cbn.
  destruct (String.eqb (sender t) addr); cbn [List.length]; lia.
Qed.

Lemma in_degree_cons t txns addr :
  in_degree (t :: txns) addr =
  (if String.eqb (receiver t) addr then 1 else 0) + in_degree txns addr.
Proof.
  unfold in_degree. cbn.
  destruct (String.eqb (receiver t) addr); cbn [List.length]; lia.
Qed.

Lemma total_outgoing_range txns addr lo hi :
  Forall (fun t => sender t = addr -> lo <= amount t <= hi) txns ->
  lo * out_degree txns addr <= total_outgoing txns addr <= hi * out_degree txns addr.
Proof.
  induction 1 as [|t txns Ht _ IH].
  - unfold total_outgoing, out_degree. cbn. lia.
  - rewrite total_outgoing_cons, out_degree_cons.
    destruct (String.eqb_spec (sender t) addr) as [Heq|_]; [|lia].
    specialize (Ht Heq). lia.
Qed.

(** The total sent lies between the least and the greatest amount a
    transfer of the address can have, times the number of transfers. *)
Theorem total_outgoing_bounds txns addr lo hi :
  Forall (fun t => sender t = addr -> lo <= amount t <= hi) txns ->
  lo * out_degree txns addr <= total_outgoing txns addr <= hi * out_degree txns addr.
Proof. exact (total_outgoing_range txns addr lo hi). Qed.

Lemma total_outgoing_bounds_witness :
  100 * out_degree [mkTxn "MULE_1" "HUB_COLLECTOR_01" 120;
                    mkTxn "MULE_1" "HUB_COLLECTOR_01" 500;
                    mkTxn "MULE_7" "HUB_COLLECTOR_01" 9] "MULE_1"
  <= total_outgoing [mkTxn "MULE_1" "HUB_COLLECTOR_01" 120;
                     mkTxn "MULE_1" "HUB_COLLECTOR_01" 500;
                     mkTxn "MULE_7" "HUB_COLLECTOR_01" 9] "MULE_1"
  <= 500 * out_degree [mkTxn "MULE_1" "HUB_COLLECTOR_01" 120;
                       mkTxn "MULE_1" "HUB_COLLECTOR_01" 500;
                       mkTxn "MULE_7" "HUB_COLLECTOR_01" 9] "MULE_1".
Proof.
  apply (total_outgoing_bounds
           [mkTxn "MULE_1" "HUB_COLLECTOR_01" 120;
            mkTxn "MULE_1" "HUB_COLLECTOR_01" 500;
            mkTxn "MULE_7" "HUB_COLLECTOR_01" 9] "MULE_1" 100 500).
  apply Forall_cons; [cbn; intros _; lia|].
  apply Forall_cons; [cbn; intros _; lia|].
  apply Forall_cons; [cbn; intros H; discriminate H|].
  apply Forall_nil.
Defined.

(** The features do not depend on the order of the transactions. *)
Theorem extract_features_permutation txns txns' addr :
  Permutation txns txns' ->
  extract_features txns addr = extract_features txns' addr.
Proof.
  intros Hp.
  assert (H : in_degree txns addr = in_degree txns' addr /\
              out_degree txns addr = out_degree txns' addr /\
              total_outgoing txns addr = total_outgoing txns' addr).
  { induction Hp as [|t l l' _ IH|t u l|l l' l'' _ IH1 _ IH2].
    - auto.
    - rewrite !in_degree_cons, !out_degree_cons, !total_outgoing_cons.
      destruct IH as (-> & -> & ->). auto.
    - rewrite !in_degree_cons, !out_degree_cons, !total_outgoing_cons.
      repeat split; lia.
    - destruct IH1 as (-> & -> & ->). exact IH2. }
  destruct H as (Hi & Ho & Ht). unfold extract_features.
  now rewrite Hi, Ho, Ht.
Qed.

Lemma extract_features_permutation_witness :
  extract_features [mkTxn "A" "B" 100; mkTxn "B" "A" 700] "A" =
  extract_features [mkTxn "B" "A" 700; mkTxn "A" "B" 100] "A".
Proof.
  apply (extract_features_permutation
           [mkTxn "A" "B" 100; mkTxn "B" "A" 700]
           [mkTxn "B" "A" 700; mkTxn "A" "B" 100] "A").
  apply perm_swap.
Defined.

(** Transactions in which the address takes no part do not count: the
    features are those of the transactions that involve it. *)
Theorem extract_features_involves txns addr :
  extract_features txns addr = extract_features (filter (involves addr) txns) addr.
Proof.
  assert (H : in_degree txns addr = in_degree (filter (involves addr) txns) addr /\
              out_degree txns addr = out_degree (filter (involves addr) txns) addr /\
              total_outgoing txns addr =
              total_outgoing (filter (involves addr) txns) addr).
  { induction txns as [|t txns (Hi & Ho & Ht)]; [auto|].
    cbn [filter].
    assert (Hinv : involves addr t =
                   String.eqb (sender t) addr || String.eqb (receiver t) addr)
      by reflexivity.
    rewrite Hinv, in_degree_cons, out_degree_cons, total_outgoing_cons.
    destruct (String.eqb (sender t) addr) eqn:Hs;
      destruct (String.eqb (receiver t) addr) eqn:Hr; cbn [orb];
      rewrite ?in_degree_cons, ?out_degree_cons, ?total_outgoing_cons, ?Hs, ?Hr;
      repeat split; lia. }
  destruct H as (Hi & Ho & Ht). unfold extract_features.
  now rewrite <- Hi, <- Ho, <- Ht.
Qed.

Lemma extract_features_involves_witness :
  extract_features [mkTxn "A" "B" 100; mkTxn "C" "D" 5; mkTxn "B" "A" 700] "A" =
  extract_features [mkTxn "A" "B" 100; mkTxn "B" "A" 700] "A".
Proof.
  exact (extract_features_involves
           [mkTxn "A" "B" 100; mkTxn "C" "D" 5; mkTxn "B" "A" 700] "A").
Defined.

(** * Further properties of the decision policy *)

(** Above a positive finite bound stays above it when the score grows. *)
Lemma gtb_leb_trans (mc : positive) (ec : Z) (x y : float) :
  gtb x (S754_finite false mc ec) = true ->
  leb x y = true ->
  gtb y (S754_finite false mc ec) = true.
Proof.
  unfold gtb, leb, SFltb, SFleb.
  destruct x as [sx|sx| |sx mx ex], y as [sy|sy| |sy my ey];
    cbn [SFcompare]; try discriminate;
    try (destruct sx; discriminate);
    try (destruct sx, sy; (discriminate || (intros H; exact H)));
    try (destruct sx; try discriminate; destruct sy; discriminate).
  - destruct sx, sy; try discriminate; intros _ _; reflexivity.
  - destruct sx, sy; try discriminate; intros _ _; reflexivity.
  - destruct sx, sy; try discriminate.
    rewrite !Pos.compare_cont_spec. unfold Pos.switch_Eq.
    destruct (Z.compare_spec ec ex) as [He|He|He];
      destruct (Z.compare_spec ex ey) as [He'|He'|He'];
      destruct (Z.compare_spec ec ey) as [He''|He''|He'']; try lia;
      destruct (Pos.compare_spec mc mx);
      destruct (Pos.compare_spec mx my);
      destruct (Pos.compare_spec mc my);
      try discriminate; try reflexivity; lia.
Qed.

Lemma gtb_0_85_mono (x y : float) :
  gtb x lit_0_85 = true -> leb x y = true -> gtb y lit_0_85 = true.
Proof. exact (gtb_leb_trans 7656119366529843 (-53) x y). Qed.

Lemma gtb_0_60_mono (x y : float) :
  gtb x lit_0_60 = true -> leb x y = true -> gtb y lit_0_60 = true.
Proof. exact (gtb_leb_trans 5404319552844595 (-53) x y). Qed.

Section DecisionOrder.

Context {R : PyRandom}.

(** A higher score never gets a milder decision: when [r1 <= r2] the
    decision for [r2] ranks at least as high as the one for [r1]
    (CLEAR below SUSPICIOUS_REVIEW below FRAUD_HIGH). *)
Theorem decision_monotone (r1 r2 : float) data (w : World) d1 d2 :
  leb r1 r2 = true ->
  fst (determine_action r1 data w) = Ok d1 ->
  fst (determine_action r2 data w) = Ok d2 ->
  severity d1 <= severity d2.
Proof.
  intros Hle. rewrite !determine_action_cases.
  destruct (gtb r1 lit_0_85) eqn:H1.
  - rewrite (gtb_0_85_mono r1 r2 H1 Hle). cbn. intros [= <-] [= <-]. reflexivity.
  - destruct (gtb r1 lit_0_60) eqn:H2.
    + rewrite (gtb_0_60_mono r1 r2 H2 Hle).
      destruct (gtb r2 lit_0_85); cbn; intros [= <-] [= <-]; cbn; lia.
    + destruct (gtb r2 lit_0_85); [|destruct (gtb r2 lit_0_60)];
        cbn; intros [= <-] [= <-]; cbn; lia.
Qed.

End DecisionOrder.

Lemma decision_monotone_witness :
  severity "SUSPICIOUS_REVIEW" <= severity "FRAUD_HIGH".
Proof.
  apply (decision_monotone (R := Reference.lcg) lit_0_85 (literal 9 10)
           (mkFraudCheck "MULE_0" 12345) Reference.world0);
    vm_compute; reflexivity.
Defined.

(** * Further properties of the handler *)

Section HandlerFacts.

Context {R : PyRandom} {N : PyNumeric}.

(** Step B reads the world and leaves it as it is; its outcome does not
    depend on the world. *)
Lemma resolve_wallet_world state data (w w0 : World) :
  resolve_wallet state data w = (fst (resolve_wallet state data w0), w).
Proof.
  unfold resolve_wallet, try_except, bind, lift.
  destruct (encoder state) as [enc|]; [|reflexivity].
  destruct (transform enc [wallet_address data]) as [ys|e]; cbn.
  - destruct (index ys 0) as [i|e]; [reflexivity|].
    destruct e; reflexivity.
  - destruct e; reflexivity.
Qed.

(** Step D adds the features to the trace and changes nothing else. *)
Lemma run_inference_world state features edge_index (w : World) :
  snd (run_inference state features edge_index w) =
  mkWorld (rng w) (background_tasks w) (inference_log w ++ [features]).
Proof.
  unfold run_inference.
  destruct (model state features edge_index) as [output|e]; [|reflexivity].
  destruct (index (map (map torch_exp) output) 0); reflexivity.
Qed.

(** The handler, step by step: what it returns and the world it leaves,
    by the outcome of each step. *)
Lemma analyze_wallet_steps state data (w : World) :
  let txns := fst (get_wallet_transactions (wallet_address data) (asset_id data) (rng w)) in
  let g := snd (get_wallet_transactions (wallet_address data) (asset_id data) (rng w)) in
  let features f := [wallet_features f; dummy_features] in
  analyze_wallet state data w =
  match fst (resolve_wallet state data w) with
  | Raise e =>
    (Raise (HTTPException 500 (StrOf e)),
     mkWorld g (background_tasks w) (inference_log w))
  | Ok _ =>
    match extract_features txns (wallet_address data) with
    | Raise e =>
      (Raise (HTTPException 500 (StrOf e)),
       mkWorld g (background_tasks w) (inference_log w))
    | Ok f =>
      let w1 := mkWorld g (background_tasks w) (inference_log w) in
      match fst (run_inference state (features f) [[0; 1]; [1; 0]] w1) with
      | Raise e =>
        (Raise (HTTPException 500 (StrOf e)),
         mkWorld g (background_tasks w) (inference_log w ++ [features f]))
      | Ok risk =>
        let w2 := mkWorld g (background_tasks w) (inference_log w ++ [features f]) in
        (Ok (mkResponse (wallet_address data) (py_round risk 4)
               (if gtb risk lit_0_85 then "FRAUD_HIGH"
                else if gtb risk lit_0_60 then "SUSPICIOUS_REVIEW" else "CLEAR")
               (asset_id data)),
         if gtb risk lit_0_85 then
           mkWorld g
             (background_tasks w ++ [mkTask (wallet_address data) (asset_id data)])
             (inference_log w ++ [features f])
         else w2)
      end
    end
  end.
Proof.
  cbv zeta. unfold analyze_wallet, try_except, bind, fetch_transactions, lift.
  destruct (get_wallet_transactions (wallet_address data) (asset_id data) (rng w))
    as [txns g]. cbn [fst snd].
  rewrite (resolve_wallet_world state data _ w).
  destruct (fst (resolve_wallet state data w)) as [idx|e]; [|reflexivity].
  destruct (extract_features txns (wallet_address data)) as [f|e]; [|reflexivity].
  pose proof (run_inference_world state [wallet_features f; dummy_features]
                [[0; 1]; [1; 0]]
                (mkWorld g (background_tasks w) (inference_log w))) as Hw.
  destruct (run_inference state _ _ _) as [[risk|e] w2]; cbn [fst snd] in *;
    subst w2; [|reflexivity].
  rewrite determine_action_cases.
  destruct (gtb risk lit_0_85); [reflexivity|].
  destruct (gtb risk lit_0_60); reflexivity.
Qed.

(** Whatever the loaded resources, the request and the model do, the
    response has status 200 or 500: no request is ever answered with
    404 or 503. *)
Theorem analyze_wallet_status_200_or_500 state data (w : World) :
  http_status (fst (analyze_wallet state data w)) = 200 \/
  http_status (fst (analyze_wallet state data w)) = 500.
Proof.
  unfold analyze_wallet, try_except.
  match goal with
  | |- context [match ?c with _ => _ end] => destruct c as [[resp|e] w']
  end; cbn.
  - destruct (json_compliant (risk_score resp)); auto.
  - auto.
Qed.

(** The freeze task is scheduled exactly when a body with the decision
    FRAUD_HIGH is returned; it is then the one task added, for the
    request's wallet and asset.  In every other case, an error included,
    the background tasks are left as they were. *)
Theorem freeze_iff_fraud_high state data (w : World) :
  (exists resp,
     fst (analyze_wallet state data w) = Ok resp /\
     decision resp = "FRAUD_HIGH" /\
     background_tasks (snd (analyze_wallet state data w)) =
     (background_tasks w ++ [mkTask (wallet_address data) (asset_id data)])%list) \/
  ((forall resp, fst (analyze_wallet state data w) = Ok resp ->
                 decision resp <> "FRAUD_HIGH") /\
   background_tasks (snd (analyze_wallet state data w)) = background_tasks w).
Proof.
  rewrite analyze_wallet_steps. cbv zeta.
  destruct (fst (resolve_wallet state data w)); [|right; split; [discriminate|reflexivity]].
  destruct (extract_features _ _) as [f|e]; [|right; split; [discriminate|reflexivity]].
  destruct (fst (run_inference _ _ _ _)) as [risk|e];
    [|right; split; [discriminate|reflexivity]].
  destruct (gtb risk lit_0_85).
  - left. eexists. repeat split.
  - right. split; [|reflexivity].
    intros resp [= <-]. cbn. destruct (gtb risk lit_0_60); discriminate.
Qed.

(** The model is run at most once per request, and exactly when the
    wallet is resolved and the features are extracted; its input is the
    two-row matrix of the wallet's five features and five zeros. *)
Theorem inference_once state data (w : World) :
  inference_log (snd (analyze_wallet state data w)) =
  match fst (resolve_wallet state data w),
        extract_features
          (fst (get_wallet_transactions (wallet_address data) (asset_id data) (rng w)))
          (wallet_address data) with
  | Ok _, Ok f =>
    (inference_log w ++
     [[[PyInt (in_d f); PyInt (out_d f); avg_amount f;
        PyFloat (structuring_score f); PyInt 30];
       [PyInt 0; PyInt 0; PyInt 0; PyInt 0; PyInt 0]]])%list
  | _, _ => inference_log w
  end.
Proof.
  rewrite analyze_wallet_steps. cbv zeta.
  destruct (fst (resolve_wallet state data w)); [|reflexivity].
  destruct (extract_features _ _) as [f|e] eqn:Hf; [|reflexivity].
  destruct (extract_features_fields _ _ _ Hf) as (_ & _ & _ & _ & _ & Hage).
  unfold wallet_features, dummy_features. rewrite Hage.
  destruct (fst (run_inference _ _ _ _)) as [risk|e]; [|reflexivity].
  destruct (gtb risk lit_0_85); reflexivity.
Qed.

(** Every request leaves the process-wide generator of [random] in a
    state fixed by the wallet address alone: the state before, the
    asset, the loaded resources and the outcome of the request make no
    difference. *)
Theorem rng_after_request state state' data asset' (w w' : World) :
  rng (snd (analyze_wallet state data w)) =
  rng (snd (analyze_wallet state' (mkFraudCheck (wallet_address data) asset') w')).
Proof.
  assert (H : forall st d (x : World),
             rng (snd (analyze_wallet st d x)) =
             snd (get_wallet_transactions (wallet_address d) (asset_id d) (rng x))).
  { intros st d x. rewrite analyze_wallet_steps. cbv zeta.
    destruct (fst (resolve_wallet st d x)); [|reflexivity].
    destruct (extract_features _ _); [|reflexivity].
    destruct (fst (run_inference _ _ _ _)) as [risk|e]; [|reflexivity].
    destruct (gtb risk lit_0_85); reflexivity. }
  rewrite !H. reflexivity.
Qed.

(** The successful path: when the encoder knows the wallet, the features
    are extracted and the model's output has an entry [x] at row 0,
    column 1, the body returned repeats the address and the asset,
    carries [round(exp(x), 4)] and the decision that the thresholds give
    to the unrounded [exp(x)]. *)
Theorem analyze_wallet_success state enc data (w : World) i rest f output row x :
  encoder state = Some enc ->
  transform enc [wallet_address data] = Ok (i :: rest) ->
  extract_features
    (fst (get_wallet_transactions (wallet_address data) (asset_id data) (rng w)))
    (wallet_address data) = Ok f ->
  model state [wallet_features f; dummy_features] [[0; 1]; [1; 0]] = Ok output ->
  nth_error output 0 = Some row ->
  nth_error row 1 = Some x ->
  fst (analyze_wallet state data w) =
  Ok (mkResponse (wallet_address data) (py_round (torch_exp x) 4)
        (if gtb (torch_exp x) lit_0_85 then "FRAUD_HIGH"
         else if gtb (torch_exp x) lit_0_60 then "SUSPICIOUS_REVIEW"
         else "CLEAR")
        (asset_id data)).
Proof.
  intros Henc Htr Hf Hm Hrow Hx. rewrite analyze_wallet_steps. cbv zeta.
  assert (Hres : fst (resolve_wallet state data w) = Ok i).
  { unfold resolve_wallet, try_except, bind, lift. rewrite Henc, Htr. reflexivity. }
  rewrite Hres, Hf.
  assert (Hrisk : forall w1, fst (run_inference state [wallet_features f; dummy_features]
                                    [[0; 1]; [1; 0]] w1) = Ok (torch_exp x)).
  { intros w1. unfold run_inference, index. rewrite Hm.
    rewrite nth_error_map, Hrow. cbn [option_map].
    rewrite nth_error_map, Hx. reflexivity. }
  rewrite Hrisk. reflexivity.
Qed.

End HandlerFacts.

Lemma analyze_wallet_success_witness :
  option_map decision
    (match fst (analyze_wallet (R := Reference.lcg) (N := Reference.plain_numeric)
                  (mkAppState (Some (Reference.encoder_of ["STU_0"; "MULE_0"]))
                              (Reference.constant_model (literal 9 10)))
                  (mkFraudCheck "STU_0" 12345) Reference.world0) with
     | Ok b => Some b
     | Raise _ => None
     end) = Some "FRAUD_HIGH".
Proof.
  rewrite (analyze_wallet_success
             (R := Reference.lcg) (N := Reference.plain_numeric)
             (mkAppState (Some (Reference.encoder_of ["STU_0"; "MULE_0"]))
                         (Reference.constant_model (literal 9 10)))
             (Reference.encoder_of ["STU_0"; "MULE_0"])
             (mkFraudCheck "STU_0" 12345) Reference.world0
             0 [] (mkFeatures 1 0 0 (PyInt 0) lit_0_1 30)
             [[literal 9 10; literal 9 10]; [literal 9 10; literal 9 10]]
             [literal 9 10; literal 9 10] (literal 9 10));
    vm_compute; reflexivity.
Defined.

(** * Startup *)

Section MissingEncoder.

Context {R : PyRandom} {N : PyNumeric}.

(** A service started without [label_encoder.pkl] does start, and then
    answers every analysis request with status 500, without running the
    model and without scheduling a freeze. *)
Theorem missing_encoder_service env st data (w : World) :
  label_encoder_pkl env = Missing ->
  load_resources env = Ok st ->
  http_status (fst (analyze_wallet st data w)) = 500 /\
  inference_log (snd (analyze_wallet st data w)) = inference_log w /\
  background_tasks (snd (analyze_wallet st data w)) = background_tasks w.
Proof.
  intros Hmiss Hload.
  assert (Henc : encoder st = None).
  { unfold load_resources in Hload. rewrite Hmiss in Hload.
    destruct (model_pt env); inversion Hload; reflexivity. }
  destruct (analyze_wallet_resolve_raises st data w
              (HTTPException 503 (Msg "Encoder not loaded. Model not ready.")))
    as (Hr & Hlog & Htasks).
  { intros w'. now apply resolve_wallet_encoder_absent. }
  rewrite Hr. cbn. auto.
Qed.

End MissingEncoder.

Lemma missing_encoder_service_witness :
  http_status
    (fst (analyze_wallet (R := Reference.lcg) (N := Reference.plain_numeric)
            (mkAppState None (Reference.constant_model lit_0_1))
            (mkFraudCheck "MULE_0" 7) Reference.world0)) = 500.
Proof.
  apply (missing_encoder_service
           (R := Reference.lcg) (N := Reference.plain_numeric)
           (mkEnvironment Missing Missing (Reference.constant_model lit_0_1))
           (mkAppState None (Reference.constant_model lit_0_1))
           (mkFraudCheck "MULE_0" 7) Reference.world0);
    reflexivity.
Defined.

(** * Python's division and the structuring score *)

(** ** Binary digits *)

Lemma digits2_pos_bounds (p : positive) :
  2 ^ (Zpos (digits2_pos p) - 1) <= Zpos p < 2 ^ Zpos (digits2_pos p).
Proof.
  induction p as [p IH|p IH|]; cbn [digits2_pos].
  - rewrite Pos2Z.inj_succ, Z.pow_succ_r by lia.
    replace (Z.succ (Zpos (digits2_pos p)) - 1) with (Z.succ (Zpos (digits2_pos p) - 1)) by lia.
    rewrite Z.pow_succ_r by lia. lia.
  - rewrite Pos2Z.inj_succ, Z.pow_succ_r by lia.
    replace (Z.succ (Zpos (digits2_pos p)) - 1) with (Z.succ (Zpos (digits2_pos p) - 1)) by lia.
    rewrite Z.pow_succ_r by lia. lia.
  - cbn. lia.
Qed.

Lemma Zdigits2_unique (n k : Z) :
  0 < k -> 2 ^ (k - 1) <= n < 2 ^ k -> Zdigits2 n = k.
Proof.
  intros Hk [Hlo Hhi].
  assert (Hn : 0 < n) by (pose proof (Z.pow_pos_nonneg 2 (k - 1)); lia).
  destruct n as [|p|p]; try lia. cbn [Zdigits2].
  pose proof (digits2_pos_bounds p) as [Hl Hh].
  set (d := Zpos (digits2_pos p)) in *.
  assert (Hd : 0 < d) by (unfold d; lia).
  destruct (Z.lt_trichotomy d k) as [Hlt|[Heq|Hgt]]; [|exact Heq|].
  - assert (2 ^ d <= 2 ^ (k - 1)) by (apply Z.pow_le_mono_r; lia). lia.
  - assert (2 ^ k <= 2 ^ (d - 1)) by (apply Z.pow_le_mono_r; lia). lia.
Qed.

(** ** Locations *)

Lemma new_location_spec (b r : Z) :
  0 < b -> 0 <= r < b -> frac_loc (new_location b r) r b.
Proof.
  intros Hb Hr. unfold new_location, new_location_even, new_location_odd.
  destruct (Z.even b) eqn:Heven.
  - destruct (Z.eqb_spec r 0) as [->|Hne]; [reflexivity|].
    destruct (Z.compare_spec (2 * r) b); unfold frac_loc; lia.
  - destruct (Z.eqb_spec r 0) as [->|Hne]; [reflexivity|].
    assert (Hodd : Z.odd b = true) by (rewrite <- Z.negb_even, Heven; reflexivity).
    apply Z.odd_spec in Hodd. destruct Hodd as [x Hx].
    destruct (Z.compare_spec (2 * r + 1) b); unfold frac_loc; lia.
Qed.

Lemma round_nearest_even_spec (m rem D : Z) (l : location) :
  0 <= rem < D -> frac_loc l rem D ->
  m <= round_nearest_even m l <= m + 1 /\
  - D <= 2 * round_nearest_even m l * D - 2 * (m * D + rem) <= D.
Proof.
  intros Hrem Hl.
  destruct l as [|[| |]]; unfold frac_loc in Hl; unfold round_nearest_even.
  - lia.
  - destruct (Z.even m); lia.
  - lia.
  - lia.
Qed.

Lemma loc_roundtrip (m : Z) (l : location) :
  shr_m (shr_record_of_loc m l) = m /\
  loc_of_shr_record (shr_record_of_loc m l) = l.
Proof. destruct l as [|[| |]]; split; reflexivity. Qed.

(** One shift to the right: the mantissa is halved and the location
    describes the remainder of the division by twice the divisor. *)
Lemma shr_1_spec (p : positive) (l : location) (rem D : Z) (odd : bool) :
  0 <= rem < D -> frac_loc l rem D ->
  let m := if odd then Zpos p~1 else Zpos p~0 in
  let rem' := if odd then D + rem else rem in
  shr_m (shr_1 (shr_record_of_loc m l)) = Zpos p /\
  0 <= rem' < 2 * D /\
  m * D + rem = Zpos p * (2 * D) + rem' /\
  frac_loc (loc_of_shr_record (shr_1 (shr_record_of_loc m l))) rem' (2 * D).
Proof.
  intros Hrem Hl.
  destruct odd, l as [|[| |]]; unfold frac_loc in Hl;
    cbn [shr_record_of_loc shr_1 shr_m loc_of_shr_record orb frac_loc];
    repeat split; lia.
Qed.

(** ** The exponent function at 53 and 54 digits *)

Lemma shr_fexp_53 (m e : Z) (l : location) :
  2 ^ 52 <= m < 2 ^ 53 -> -1074 <= e ->
  shr_fexp prec emax m e l = (shr_record_of_loc m l, e).
Proof.
  intros Hm He. unfold shr_fexp, fexp, emin, prec, emax.
  rewrite (Zdigits2_unique m 53) by (try exact Hm; lia).
  replace (Z.max (53 + e - 53) (3 - 1024 - 53) - e) with 0 by lia.
  reflexivity.
Qed.

Lemma shr_fexp_54 (m e : Z) (l : location) :
  2 ^ 53 <= m < 2 ^ 54 -> -1075 <= e ->
  shr_fexp prec emax m e l = (shr_1 (shr_record_of_loc m l), e + 1).
Proof.
  intros Hm He. unfold shr_fexp, fexp, emin, prec, emax.
  rewrite (Zdigits2_unique m 54) by (try exact Hm; lia).
  replace (Z.max (54 + e - 53) (3 - 1024 - 53) - e) with 1 by lia.
  reflexivity.
Qed.

(** ** Rounding a quotient of 53 or 54 digits *)

Lemma binary_round_aux_finish (q e : Z) (l : location) :
  binary_round_aux prec emax false q e l =
  finish (round_nearest_even (shr_m (fst (shr_fexp prec emax q e l)))
            (loc_of_shr_record (fst (shr_fexp prec emax q e l))))
         (snd (shr_fexp prec emax q e l)).
Proof.
  unfold binary_round_aux, finish.
  destruct (shr_fexp prec emax q e l) as [mrs e1]. reflexivity.
Qed.

Lemma finish_spec (m2 e1 : Z) :
  2 ^ 52 <= m2 <= 2 ^ 53 -> -1074 <= e1 <= 970 ->
  exists (m : positive) (k : Z),
    0 <= k <= 1 /\
    finish m2 e1 = S754_finite false m (e1 + k) /\
    2 ^ 52 <= Zpos m < 2 ^ 53 /\
    Zpos m * 2 ^ k = m2.
Proof.
  intros Hm He.
  destruct (Z.eq_dec m2 (2 ^ 53)) as [->|Hne].
  - exists (Z.to_pos (2 ^ 52)), 1. split; [lia|].
    unfold finish. rewrite shr_fexp_54 by lia.
    change (2 ^ 53) with 9007199254740992.
    cbn [shr_record_of_loc shr_1 shr_m].
    replace (e1 + 1 <=? emax - prec) with true
      by (symmetry; apply Z.leb_le; unfold emax, prec; lia).
    split; [reflexivity|]. split; [|reflexivity].
    split; [apply Z.leb_le; reflexivity | apply Z.ltb_lt; reflexivity].
  - assert (Hlt : 2 ^ 52 <= m2 < 2 ^ 53) by lia.
    assert (H0 : 0 < 2 ^ 52) by (apply Z.ltb_lt; reflexivity).
    destruct m2 as [|p|p]; try lia.
    exists p, 0. split; [lia|].
    unfold finish. rewrite shr_fexp_53 by lia.
    cbn [shr_record_of_loc shr_m].
    replace (e1 <=? emax - prec) with true
      by (symmetry; apply Z.leb_le; unfold emax, prec; lia).
    rewrite Z.add_0_r, Z.mul_1_r. auto.
Qed.

Lemma binary_round_aux_spec (q e rem D : Z) (l : location) :
  2 ^ 52 <= q < 2 ^ 54 -> -1074 <= e <= 960 ->
  0 <= rem < D -> frac_loc l rem D ->
  exists (m : positive) (k : Z),
    0 <= k <= 2 /\
    binary_round_aux prec emax false q e l = S754_finite false m (e + k) /\
    2 ^ 52 <= Zpos m < 2 ^ 53 /\
    - (D * 2 ^ k) <= 2 * (Zpos m * 2 ^ k) * D - 2 * (q * D + rem) <= D * 2 ^ k.
Proof.
  intros Hq He Hrem Hl. rewrite binary_round_aux_finish.
  assert (H52 : 2 ^ 53 = 2 * 2 ^ 52) by reflexivity.
  assert (H54 : 2 ^ 54 = 2 * 2 ^ 53) by reflexivity.
  destruct (Z_lt_le_dec q (2 ^ 53)) as [Hlt|Hge].
  - rewrite shr_fexp_53 by lia. cbn [fst snd].
    destruct (loc_roundtrip q l) as [-> ->].
    destruct (round_nearest_even_spec q rem D l Hrem Hl) as [Hm2 Hnear].
    destruct (finish_spec (round_nearest_even q l) e) as (m & k & Hk & Hfin & Hm & Hval);
      [lia|lia|].
    exists m, k. split; [lia|]. split; [exact Hfin|]. split; [exact Hm|].
    rewrite Hval.
    assert (Hk' : k = 0 \/ k = 1) by lia.
    destruct Hk' as [->| ->]; [change (2 ^ 0) with 1|change (2 ^ 1) with 2]; lia.
  - destruct q as [|pq|pq]; try lia.
    rewrite shr_fexp_54 by lia. cbn [fst snd].
    assert (Hcase : exists (p : positive) (odd : bool), Zpos pq = (if odd then Zpos p~1 else Zpos p~0)).
    { destruct pq as [p|p|]; [exists p, true|exists p, false|]; try reflexivity.
      exfalso. assert (0 < 2 ^ 52) by (apply Z.ltb_lt; reflexivity). lia. }
    destruct Hcase as (p & odd & Hpq). rewrite Hpq in *.
    destruct (shr_1_spec p l rem D odd Hrem Hl) as (Hsm & Hrem' & Hsplit & Hl').
    cbv zeta in Hsm, Hrem', Hsplit, Hl'. rewrite Hsm.
    set (l' := loc_of_shr_record _) in *.
    set (rem' := if odd then D + rem else rem) in *.
    assert (Hp : 2 ^ 52 <= Zpos p < 2 ^ 53) by (destruct odd; lia).
    destruct (round_nearest_even_spec (Zpos p) rem' (2 * D) l' Hrem' Hl')
      as [Hm2 Hnear].
    destruct (finish_spec (round_nearest_even (Zpos p) l') (e + 1))
      as (m & k & Hk & Hfin & Hm & Hval); [lia|lia|].
    exists m, (1 + k). split; [lia|].
    split; [rewrite Hfin; f_equal; lia|]. split; [exact Hm|].
    rewrite Hsplit.
    assert (Hk' : k = 0 \/ k = 1) by lia.
    destruct Hk' as [->| ->].
    + change (2 ^ (1 + 0)) with 2. change (2 ^ 0) with 1 in Hval. lia.
    + change (2 ^ (1 + 1)) with 4. change (2 ^ 1) with 2 in Hval. lia.
Qed.

(** ** Division of positive integers *)

Lemma digits2_pos_le (p : positive) (n : Z) :
  0 <= n -> Zpos p < 2 ^ n -> Zpos (digits2_pos p) <= n.
Proof.
  intros Hn Hp. pose proof (digits2_pos_bounds p) as [Hlo _].
  destruct (Z_le_gt_dec (Zpos (digits2_pos p)) n) as [|Hgt]; [assumption|].
  assert (2 ^ n <= 2 ^ (Zpos (digits2_pos p) - 1)) by (apply Z.pow_le_mono_r; lia).
  lia.
Qed.

Lemma SFdiv_core_spec (a b : positive) :
  Zpos a < 2 ^ 52 -> Zpos b < 2 ^ 52 ->
  let s := 53 + Zpos (digits2_pos b) - Zpos (digits2_pos a) in
  2 <= s <= 105 /\
  SFdiv_core_binary prec emax (Zpos a) 0 (Zpos b) 0 =
  ((Zpos a * 2 ^ s) / Zpos b, - s,
   new_location (Zpos b) ((Zpos a * 2 ^ s) mod Zpos b)) /\
  2 ^ 52 <= (Zpos a * 2 ^ s) / Zpos b < 2 ^ 54.
Proof.
  intros Ha Hb s.
  pose proof (digits2_pos_bounds a) as [Ha1 Ha2].
  pose proof (digits2_pos_bounds b) as [Hb1 Hb2].
  pose proof (digits2_pos_le a 52 ltac:(lia) Ha) as Hda.
  pose proof (digits2_pos_le b 52 ltac:(lia) Hb) as Hdb.
  set (d1 := Zpos (digits2_pos a)) in *.
  set (d2 := Zpos (digits2_pos b)) in *.
  assert (Hd1 : 1 <= d1) by (unfold d1; lia).
  assert (Hd2 : 1 <= d2) by (unfold d2; lia).
  assert (Hs : 2 <= s <= 105) by (unfold s; lia).
  split; [exact Hs|]. split.
  - unfold SFdiv_core_binary. cbn [Zdigits2]. fold d1 d2.
    unfold fexp, emin, prec, emax.
    replace (Z.min (Z.max (d1 + 0 - (d2 + 0) - 53) (3 - 1024 - 53)) (0 - 0))
      with (- s) by (unfold s; lia).
    replace (0 - 0 - - s) with s by lia.
    destruct s as [|ps|ps] eqn:Es; try lia.
    rewrite Z.shiftl_mul_pow2 by lia.
    unfold Z.div, Z.modulo.
    destruct (Z.div_eucl (Zpos a * 2 ^ Zpos ps) (Zpos b)) as [q r]. reflexivity.
  - assert (Hpow1 : 2 ^ d1 * 2 ^ s = 2 ^ 54 * 2 ^ (d2 - 1)).
    { rewrite <- !Z.pow_add_r by lia. f_equal. unfold s. lia. }
    assert (Hpow2 : 2 ^ (d1 - 1) * 2 ^ s = 2 ^ 52 * 2 ^ d2).
    { rewrite <- !Z.pow_add_r by lia. f_equal. unfold s. lia. }
    assert (H2s : 0 < 2 ^ s) by (apply Z.pow_pos_nonneg; lia).
    assert (H52 : 0 < 2 ^ 52) by (apply Z.ltb_lt; reflexivity).
    assert (H54 : 0 < 2 ^ 54) by (apply Z.ltb_lt; reflexivity).
    split.
    + apply Z.div_le_lower_bound; [lia|].
      apply Z.le_trans with (2 ^ 52 * 2 ^ d2); [nia|].
      rewrite <- Hpow2. nia.
    + apply Z.div_lt_upper_bound; [lia|].
      apply Z.lt_le_trans with (2 ^ d1 * 2 ^ s); [nia|].
      rewrite Hpow1. nia.
Qed.

(** The quotient of two positive integers below [2^52] is a normal
    number [m * 2^(-E)] with a 53-bit mantissa, within half a unit in the
    last place of the exact quotient. *)
Theorem div_pos_nearest (a b : positive) :
  Zpos a < 2 ^ 52 -> Zpos b < 2 ^ 52 ->
  exists (m : positive) (E : Z),
    0 <= E <= 105 /\
    div (S754_finite false a 0) (S754_finite false b 0) = S754_finite false m (- E) /\
    2 ^ 52 <= Zpos m < 2 ^ 53 /\
    - Zpos b <= 2 * Zpos m * Zpos b - 2 * (Zpos a * 2 ^ E) <= Zpos b.
Proof.
  intros Ha Hb.
  destruct (SFdiv_core_spec a b Ha Hb) as (Hs & Hcore & Hq). cbv zeta in *.
  set (s := 53 + Zpos (digits2_pos b) - Zpos (digits2_pos a)) in *.
  set (X := Zpos a * 2 ^ s) in *.
  assert (Hrem : 0 <= X mod Zpos b < Zpos b) by (apply Z.mod_pos_bound; lia).
  pose proof (new_location_spec (Zpos b) (X mod Zpos b) ltac:(lia) Hrem) as Hloc.
  destruct (binary_round_aux_spec (X / Zpos b) (- s) (X mod Zpos b) (Zpos b)
              (new_location (Zpos b) (X mod Zpos b)) Hq ltac:(lia) Hrem Hloc)
    as (m & k & Hk & Hround & Hm & Hnear).
  assert (HX : X / Zpos b * Zpos b + X mod Zpos b = X).
  { rewrite Z.mul_comm. symmetry. apply Z.div_mod. lia. }
  rewrite HX in Hnear.
  exists m, (s - k). split; [lia|]. split.
  - unfold div, SFdiv. rewrite Hcore. cbn [xorb]. rewrite Hround.
    f_equal. lia.
  - split; [exact Hm|].
    assert (Hpow : 2 ^ s = 2 ^ (s - k) * 2 ^ k).
    { rewrite <- Z.pow_add_r by lia. f_equal. lia. }
    unfold X in Hnear. rewrite Hpow in Hnear.
    set (P := 2 ^ (s - k)) in *.
    assert (Hk' : k = 0 \/ k = 1 \/ k = 2) by lia.
    destruct Hk' as [->|[->| ->]];
      [change (2 ^ 0) with 1 in Hnear
      |change (2 ^ 1) with 2 in Hnear
      |change (2 ^ 2) with 4 in Hnear]; lia.
Qed.

(** ** Comparing a quotient with an integer threshold *)

(** A number [m * 2^(-E)] within half a unit in the last place of
    [a / b] is below the integer [c], itself [mt * 2^(-Et)], exactly
    when [a < c * b], as long as [b <= 2^Et]. *)
Lemma ltb_threshold (m mt : positive) (E Et a b c : Z) :
  0 <= E -> 0 <= Et ->
  2 ^ 52 <= Zpos m < 2 ^ 53 ->
  2 ^ 52 <= Zpos mt < 2 ^ 53 ->
  Zpos mt = c * 2 ^ Et ->
  0 < b <= 2 ^ Et ->
  - b <= 2 * Zpos m * b - 2 * (a * 2 ^ E) <= b ->
  ltb (S754_finite false m (- E)) (S754_finite false mt (- Et)) = (a <? c * b).
Proof.
  intros HE HEt Hm Hmt Hc Hb Hnear.
  assert (H53 : 2 ^ 53 = 2 * 2 ^ 52) by reflexivity.
  assert (H52 : 0 < 2 ^ 52) by (apply Z.ltb_lt; reflexivity).
  set (M := Zpos m) in *. set (T := Zpos mt) in *.
  set (K := 2 ^ 52) in *.
  unfold ltb, SFltb. cbn [SFcompare].
  rewrite Pos.compare_cont_spec. unfold Pos.switch_Eq.
  change (Pos.compare m mt) with (Z.compare M T).
  destruct (Z.compare_spec (- E) (- Et)) as [Heq|Hlt|Hgt].
  - (* same exponent *)
    assert (E = Et) by lia. subst E.
    set (Q := 2 ^ Et) in *.
    assert (HQ : 0 < Q) by (apply Z.pow_pos_nonneg; lia).
    destruct (Z.ltb_spec a (c * b)) as [Hab|Hab].
    + assert (Hstep : a * Q + Q <= T * b).
      { rewrite Hc. replace (c * Q * b) with (c * b * Q) by ring.
        replace (a * Q + Q) with ((a + 1) * Q) by ring.
        apply Z.mul_le_mono_nonneg_r; lia. }
      assert (HMT : M * b < T * b) by lia.
      assert (M < T) by (apply (Z.mul_lt_mono_pos_r b); lia).
      destruct (Z.compare_spec M T); try lia; reflexivity.
    + assert (Hstep : T * b <= a * Q).
      { rewrite Hc. replace (c * Q * b) with (c * b * Q) by ring.
        apply Z.mul_le_mono_nonneg_r; lia. }
      assert (HMT : (T - 1) * b < M * b) by lia.
      assert (T - 1 < M) by (apply (Z.mul_lt_mono_pos_r b); lia).
      destruct (Z.compare_spec M T); try lia; reflexivity.
  - (* smaller exponent: the number is below the threshold *)
    assert (HEE : Et < E) by lia.
    set (Q := 2 ^ Et) in *.
    assert (HQ : 0 < Q) by (apply Z.pow_pos_nonneg; lia).
    assert (Hpow : 2 ^ E = Q * 2 ^ (E - Et)).
    { unfold Q. rewrite <- Z.pow_add_r by lia. f_equal. lia. }
    assert (Hw : 2 <= 2 ^ (E - Et)).
    { change 2 with (2 ^ 1) at 1. apply Z.pow_le_mono_r; lia. }
    set (w := 2 ^ (E - Et)) in *. rewrite Hpow in Hnear.
    destruct (Z.ltb_spec a (c * b)) as [Hab|Hab]; [reflexivity|exfalso].
    assert (Hstep : T * b <= a * Q).
    { rewrite Hc. replace (c * Q * b) with (c * b * Q) by ring.
      apply Z.mul_le_mono_nonneg_r; lia. }
    assert (Hstep2 : 2 * (T * b) <= a * Q * w).
    { apply Z.le_trans with (a * Q * 2); [lia|].
      apply Z.mul_le_mono_nonneg_l; [|lia].
      apply Z.le_trans with (T * b); [|exact Hstep].
      apply Z.mul_nonneg_nonneg; lia. }
    replace (a * (Q * w)) with (a * Q * w) in Hnear by ring.
    assert (HKb : K * b <= T * b) by (apply Z.mul_le_mono_nonneg_r; lia).
    assert (HMb : M * b <= (2 * K - 1) * b) by (apply Z.mul_le_mono_nonneg_r; lia).
    lia.
  - (* larger exponent: the number is above the threshold *)
    assert (HEE : E < Et) by lia.
    set (P := 2 ^ E) in *.
    assert (HP : 0 < P) by (apply Z.pow_pos_nonneg; lia).
    assert (Hpow : 2 ^ Et = P * 2 ^ (Et - E)).
    { unfold P. rewrite <- Z.pow_add_r by lia. f_equal. lia. }
    assert (Hw : 2 <= 2 ^ (Et - E)).
    { change 2 with (2 ^ 1) at 1. apply Z.pow_le_mono_r; lia. }
    set (w := 2 ^ (Et - E)) in *. rewrite Hpow in *.
    destruct (Z.ltb_spec a (c * b)) as [Hab|Hab]; [exfalso|reflexivity].
    assert (Hstep : a * (P * w) + P * w <= T * b).
    { rewrite Hc. replace (c * (P * w) * b) with (c * b * (P * w)) by ring.
      replace (a * (P * w) + P * w) with ((a + 1) * (P * w)) by ring.
      apply Z.mul_le_mono_nonneg_r; [|lia].
      apply Z.mul_nonneg_nonneg; lia. }
    assert (HKb : K * b <= M * b) by (apply Z.mul_le_mono_nonneg_r; lia).
    assert (HTb : T * b <= (2 * K - 1) * b) by (apply Z.mul_le_mono_nonneg_r; lia).
    assert (HaP : 2 * K * b - b <= 2 * (a * P)) by lia.
    assert (HaPw : 2 * (a * P) <= a * P * w).
    { rewrite (Z.mul_comm 2). apply Z.mul_le_mono_nonneg_l; [|lia].
      assert (0 <= 2 * K * b - b) by nia. lia. }
    replace (a * (P * w)) with (a * P * w) in Hstep by ring.
    lia.
Qed.

(** ** Python's integer division against the threshold 500 *)

Lemma of_int_500 : of_int 500 = S754_finite false 8796093022208000 (-44).
Proof. vm_compute. reflexivity. Qed.

(** For a non-negative dividend below [2^52] and a positive divisor up
    to [2^44] the division returns, and its result is below 500 exactly
    when the exact quotient is. *)
Lemma int_truediv_lt_500 (a b : Z) :
  0 <= a < 2 ^ 52 -> 0 < b <= 2 ^ 44 ->
  exists q, int_truediv a b = Ok q /\ ltb q (of_int 500) = (a <? 500 * b).
Proof.
  intros Ha Hb.
  assert (H44 : 2 ^ 44 < 2 ^ 52) by (apply Z.ltb_lt; reflexivity).
  destruct b as [|pb|pb]; try lia.
  destruct a as [|pa|pa]; try lia.
  - exists (S754_zero false). split; [reflexivity|].
    rewrite of_int_500. symmetry. apply Z.ltb_lt. lia.
  - destruct (div_pos_nearest pa pb) as (m & E & HE & Hdiv & Hm & Hnear); [lia|lia|].
    exists (S754_finite false m (- E)). split.
    + unfold int_truediv.
      change (Z.pos pa <? 0) with false. change (Z.pos pb <? 0) with false.
      change (Z.to_pos (Z.abs (Z.pos pa))) with pa.
      change (Z.to_pos (Z.abs (Z.pos pb))) with pb.
      rewrite Hdiv. reflexivity.
    + rewrite of_int_500.
      apply (ltb_threshold m 8796093022208000 E 44 (Zpos pa) (Zpos pb) 500);
        try lia; try exact Hm; try exact Hnear.
Qed.

(** * The structuring score and the exact average *)

Lemma average_exact (total out_d : Z) :
  0 <= total < 2 ^ 52 -> out_d <= 2 ^ 44 ->
  exists avg,
    average total out_d = Ok avg /\
    structuring out_d avg =
    if (0 <? out_d) && (total <? 500 * out_d) then lit_0_8 else lit_0_1.
Proof.
  intros Ht Ho. unfold average, structuring.
  destruct (Z.ltb_spec 0 out_d) as [Hpos|Hneg].
  - rewrite Z.max_l by lia.
    destruct (int_truediv_lt_500 total out_d Ht ltac:(lia)) as (q & -> & Hq).
    exists (PyFloat q). split; [reflexivity|].
    cbn [andb num_lt]. now rewrite Hq.
  - exists (PyInt 0). split; reflexivity.
Qed.

Lemma extract_features_exact txns addr :
  0 <= total_outgoing txns addr < 2 ^ 52 ->
  out_degree txns addr <= 2 ^ 44 ->
  exists f,
    extract_features txns addr = Ok f /\
    out_d f = out_degree txns addr /\
    total_amount f = total_outgoing txns addr /\
    structuring_score f =
    if (0 <? out_degree txns addr) &&
       (total_outgoing txns addr <? 500 * out_degree txns addr)
    then lit_0_8 else lit_0_1.
Proof.
  intros Ht Ho. unfold extract_features.
  destruct (average_exact _ _ Ht Ho) as (avg & -> & Hs).
  eexists. split; [reflexivity|]. cbn. auto.
Qed.

(** The rounding of the division never changes the score: whenever the
    total sent is non-negative and below [2^52] and there are at most
    [2^44] transfers, the features are extracted and the score is 0.8
    exactly when there is a transfer and the total is below 500 times
    their number. *)
Theorem structuring_exact txns addr :
  0 <= total_outgoing txns addr < 2 ^ 52 ->
  out_degree txns addr <= 2 ^ 44 ->
  exists f,
    extract_features txns addr = Ok f /\
    structuring_score f =
    if (0 <? out_degree txns addr) &&
       (total_outgoing txns addr <? 500 * out_degree txns addr)
    then lit_0_8 else lit_0_1.
Proof.
  intros Ht Ho.
  destruct (extract_features_exact txns addr Ht Ho) as (f & Hf & _ & _ & Hs).
  exists f. auto.
Qed.

Lemma structuring_exact_witness :
  exists f,
    extract_features
      [mkTxn "MULE_1" "HUB_COLLECTOR_01" 500; mkTxn "MULE_1" "HUB_COLLECTOR_01" 499]
      "MULE_1" = Ok f /\
    structuring_score f = lit_0_8.
Proof.
  destruct (structuring_exact
              [mkTxn "MULE_1" "HUB_COLLECTOR_01" 500;
               mkTxn "MULE_1" "HUB_COLLECTOR_01" 499] "MULE_1")
    as (f & Hf & Hs).
  - vm_compute. split; [discriminate|reflexivity].
  - vm_compute. discriminate.
  - exists f. split; [exact Hf|]. rewrite Hs. reflexivity.
Defined.

(** * The features of the simulator's output *)

Lemma out_degree_le_length txns addr :
  0 <= out_degree txns addr <= Z.of_nat (List.length txns).
Proof.
  unfold out_degree.
  pose proof (filter_length_le (fun t => String.eqb (sender t) addr) txns). lia.
Qed.

(** All amounts equal to 500, as a test. *)
Lemma total_below_500 txns addr :
  Forall (fun t => sender t = addr /\ amount t <= 500) txns ->
  (total_outgoing txns addr <? 500 * out_degree txns addr) =
  negb (forallb (fun t => amount t =? 500) txns).
Proof.
  intros H.
  assert (Hle : total_outgoing txns addr <= 500 * out_degree txns addr /\
                (total_outgoing txns addr <? 500 * out_degree txns addr) =
                negb (forallb (fun t => amount t =? 500) txns)).
  { induction H as [|t txns [Hs Ha] _ [IH1 IH2]].
    - split; reflexivity.
    - rewrite total_outgoing_cons, out_degree_cons, Hs, String.eqb_refl.
      cbn [forallb]. split; [lia|].
      destruct (Z.eqb_spec (amount t) 500) as [Heq|Hne]; cbn [andb negb].
      + rewrite <- IH2, Heq.
        destruct (Z.ltb_spec (total_outgoing txns addr) (500 * out_degree txns addr));
          [apply Z.ltb_lt|apply Z.ltb_ge]; lia.
      + apply Z.ltb_lt. lia. }
  apply Hle.
Qed.

Section SimulatorFeatures.

Context {R : PyRandom}.

Lemma simulator_amounts addr asset (g : rng_state) :
  Forall (fun t => 100 <= amount t <= 5000)
         (fst (get_wallet_transactions addr asset g)) /\
  Z.of_nat (List.length (fst (get_wallet_transactions addr asset g))) <= 60.
Proof.
  unfold get_wallet_transactions.
  destruct (contains "MULE" addr);
    [|destruct (contains "HUB" addr);
      [|destruct (contains "STU" addr);
        [|destruct (contains "GOVT" addr)]]];
    (split;
     [apply pattern_Forall; [lia|]; cbn [amount]; intros; lia
     |match goal with
      | |- context [pattern ?cmin ?cmax ?mk ?lo ?hi ?g'] =>
        pose proof (pattern_length cmin cmax mk lo hi g' ltac:(lia)); lia
      end]).
Qed.

Lemma simulator_ranges addr asset (g : rng_state) :
  let txns := fst (get_wallet_transactions addr asset g) in
  0 <= out_degree txns addr <= 60 /\
  100 * out_degree txns addr <= total_outgoing txns addr <= 5000 * out_degree txns addr.
Proof.
  cbv zeta. destruct (simulator_amounts addr asset g) as [Hall Hlen].
  pose proof (out_degree_le_length (fst (get_wallet_transactions addr asset g)) addr).
  split; [lia|].
  apply total_outgoing_range. eapply Forall_impl; [|exact Hall]. cbn. auto.
Qed.

Lemma simulator_extract addr asset (g : rng_state) :
  let txns := fst (get_wallet_transactions addr asset g) in
  exists f,
    extract_features txns addr = Ok f /\
    out_d f = out_degree txns addr /\
    total_amount f = total_outgoing txns addr /\
    structuring_score f =
    if (0 <? out_degree txns addr) &&
       (total_outgoing txns addr <? 500 * out_degree txns addr)
    then lit_0_8 else lit_0_1.
Proof.
  cbv zeta. destruct (simulator_ranges addr asset g) as [Ho Ht]. cbv zeta in *.
  apply extract_features_exact; lia.
Qed.

(** For every address the features are extracted from the simulator's
    output without an exception; the total sent is between 100 and 5000
    times [out_d], which is at most 60; and the structuring score is 0.8
    exactly when there is a transfer out and the total is below 500
    times their number. *)
Theorem simulator_features addr asset (g : rng_state) :
  exists f,
    extract_features (fst (get_wallet_transactions addr asset g)) addr = Ok f /\
    0 <= out_d f <= 60 /\
    100 * out_d f <= total_amount f <= 5000 * out_d f /\
    structuring_score f =
    if (0 <? out_d f) && (total_amount f <? 500 * out_d f)
    then lit_0_8 else lit_0_1.
Proof.
  destruct (simulator_extract addr asset g) as (f & Hf & Ho & Ht & Hs).
  destruct (simulator_ranges addr asset g) as [Hr1 Hr2]. cbv zeta in *.
  exists f. rewrite Ho, Ht. auto.
Qed.

(** Mule wallets get the structuring score 0.8, unless every one of
    their transfers is of exactly 500, in which case the average is
    500.0 and the score is 0.1. *)
Theorem mule_structuring addr asset (g : rng_state) :
  contains "MULE" addr = true ->
  exists f,
    extract_features (fst (get_wallet_transactions addr asset g)) addr = Ok f /\
    structuring_score f =
    if forallb (fun t => amount t =? 500)
               (fst (get_wallet_transactions addr asset g))
    then lit_0_1 else lit_0_8.
Proof.
  intros Hm.
  destruct (simulator_extract addr asset g) as (f & Hf & _ & _ & Hs).
  cbv zeta in *. exists f. split; [exact Hf|]. rewrite Hs. clear Hf Hs.
  rewrite (get_wallet_transactions_mule addr asset g Hm).
  set (p := pattern 15 30 _ 100 500 _).
  assert (Hall : Forall (fun t => sender t = addr /\ amount t <= 500) (fst p)).
  { apply pattern_Forall; [lia|]. cbn. intros. split; [reflexivity|lia]. }
  assert (Hlen : 15 <= Z.of_nat (List.length (fst p))) by (apply pattern_length; lia).
  assert (Hout : out_degree (fst p) addr = Z.of_nat (List.length (fst p))).
  { apply out_degree_all. eapply Forall_impl; [|exact Hall]. cbn. tauto. }
  rewrite (total_below_500 _ _ Hall).
  replace (0 <? out_degree (fst p) addr) with true
    by (symmetry; apply Z.ltb_lt; lia).
  destruct (forallb _ (fst p)); reflexivity.
Qed.

(** Government wallets get the structuring score 0.1: they send at
    least 1000 per transfer. *)
Theorem govt_structuring addr asset (g : rng_state) :
  contains "MULE" addr = false ->
  contains "HUB" addr = false ->
  contains "STU" addr = false ->
  contains "GOVT" addr = true ->
  exists f,
    extract_features (fst (get_wallet_transactions addr asset g)) addr = Ok f /\
    structuring_score f = lit_0_1.
Proof.
  intros Hm Hh Hs Hg.
  destruct (simulator_extract addr asset g) as (f & Hf & _ & _ & Hsc).
  cbv zeta in *. exists f. split; [exact Hf|]. rewrite Hsc. clear Hf Hsc.
  rewrite (get_wallet_transactions_govt addr asset g Hm Hh Hs Hg).
  set (p := pattern 40 60 _ 1000 5000 _).
  assert (Hall : Forall (fun t => sender t = addr -> 1000 <= amount t <= 5000) (fst p)).
  { apply pattern_Forall; [lia|]. cbn. auto. }
  pose proof (total_outgoing_range _ _ _ _ Hall) as Hr.
  pose proof (out_degree_le_length (fst p) addr) as Ho.
  replace (total_outgoing (fst p) addr <? 500 * out_degree (fst p) addr) with false
    by (symmetry; apply Z.ltb_ge; lia).
  now rewrite andb_false_r.
Qed.

End SimulatorFeatures.

Lemma mule_structuring_witness :
  contains "MULE" "MULE_0" = true /\
  exists f,
    extract_features
      (fst (get_wallet_transactions (R := Reference.lcg) "MULE_0" 12345 0)) "MULE_0"
    = Ok f /\
    structuring_score f = lit_0_8.
Proof.
  split; [reflexivity|].
  destruct (mule_structuring (R := Reference.lcg) "MULE_0" 12345 0 eq_refl)
    as (f & Hf & Hs).
  exists f. split; [exact Hf|]. rewrite Hs. reflexivity.
Defined.

Lemma govt_structuring_witness :
  contains "MULE" "GOVT_SCHOLARSHIP_DEPT" = false /\
  contains "HUB" "GOVT_SCHOLARSHIP_DEPT" = false /\
  contains "STU" "GOVT_SCHOLARSHIP_DEPT" = false /\
  contains "GOVT" "GOVT_SCHOLARSHIP_DEPT" = true /\
  exists f,
    extract_features
      (fst (get_wallet_transactions (R := Reference.lcg)
              "GOVT_SCHOLARSHIP_DEPT" 12345 0)) "GOVT_SCHOLARSHIP_DEPT"
    = Ok f /\
    structuring_score f = lit_0_1.
Proof.
  do 4 (split; [reflexivity|]).
  exact (govt_structuring (R := Reference.lcg) "GOVT_SCHOLARSHIP_DEPT" 12345 0
           eq_refl eq_refl eq_refl eq_refl).
Defined.

Section ArithmeticNeverFails.

Context {R : PyRandom} {N : PyNumeric}.

(** When the handler answers with an error, the exception came from the
    encoder (absent, or raising on the wallet) or from the model call
    (raising, or returning an output without an entry at row 0, column
    1): the handler's own arithmetic on the simulated transactions never
    raises. *)
Theorem analyze_wallet_error_origin state data (w : World) e :
  fst (analyze_wallet state data w) = Raise e ->
  (exists e', fst (resolve_wallet state data w) = Raise e' /\
              e = HTTPException 500 (StrOf e')) \/
  (exists f e',
     extract_features
       (fst (get_wallet_transactions (wallet_address data) (asset_id data) (rng w)))
       (wallet_address data) = Ok f /\
     (forall w1, fst (run_inference state [wallet_features f; dummy_features]
                        [[0; 1]; [1; 0]] w1) = Raise e') /\
     e = HTTPException 500 (StrOf e')).
Proof.
  rewrite analyze_wallet_steps. cbv zeta.
  destruct (fst (resolve_wallet state data w)) as [idx|e'].
  - destruct (simulator_extract (wallet_address data) (asset_id data) (rng w))
      as (f & Hf & _). cbv zeta in Hf. rewrite Hf.
    destruct (fst (run_inference _ _ _ _)) as [risk|e'] eqn:Hrun.
    + discriminate.
    + intros [= <-]. right. exists f, e'. split; [reflexivity|]. split; [|reflexivity].
      intros w1. revert Hrun. unfold run_inference.
      destruct (model state _ _) as [output|e0]; [|auto].
      destruct (index (map (map torch_exp) output) 0); auto.
  - intros [= <-]. left. eauto.
Qed.

End ArithmeticNeverFails.

Lemma analyze_wallet_error_origin_witness :
  exists e',
    fst (resolve_wallet (R := Reference.lcg)
           (mkAppState None (Reference.constant_model lit_0_1))
           (mkFraudCheck "STU_0" 12345) Reference.world0) = Raise e'.
Proof.
  destruct (analyze_wallet_error_origin
              (R := Reference.lcg) (N := Reference.plain_numeric)
              (mkAppState None (Reference.constant_model lit_0_1))
              (mkFraudCheck "STU_0" 12345) Reference.world0
              (HTTPException 500
                 (StrOf (HTTPException 503
                           (Msg "Encoder not loaded. Model not ready.")))))
    as [(e' & He' & _)|(f & e' & _ & Hrun & _)].
  - reflexivity.
  - exists e'. exact He'.
  - exfalso. specialize (Hrun Reference.world0). discriminate Hrun.
Defined.

(** * The student branch, and repeated requests *)

Section StudentBranch.

Context {R : PyRandom}.

(** Student wallets (containing "STU" and neither "MULE" nor "HUB"):
    1 to 5 transfers of 1000 to 5000, all from "GOVT_SCHOLARSHIP_DEPT"
    to the wallet. *)
Theorem stu_profile addr asset (g : rng_state) :
  contains "MULE" addr = false ->
  contains "HUB" addr = false ->
  contains "STU" addr = true ->
  1 <= Z.of_nat (List.length (fst (get_wallet_transactions addr asset g))) <= 5 /\
  Forall (fun t => sender t = "GOVT_SCHOLARSHIP_DEPT" /\ receiver t = addr /\
                   1000 <= amount t <= 5000)
         (fst (get_wallet_transactions addr asset g)).
Proof.
  intros Hm Hh Hs. rewrite (get_wallet_transactions_stu addr asset g Hm Hh Hs).
  split; [apply pattern_length; lia|].
  apply pattern_Forall; [lia|]. cbn. auto.
Qed.

End StudentBranch.

Lemma stu_profile_witness :
  contains "MULE" "STU_0" = false /\
  contains "HUB" "STU_0" = false /\
  contains "STU" "STU_0" = true /\
  1 <= Z.of_nat
         (List.length
            (fst (get_wallet_transactions (R := Reference.lcg) "STU_0" 12345 0))) <= 5.
Proof.
  do 3 (split; [reflexivity|]).
  exact (proj1 (stu_profile (R := Reference.lcg) "STU_0" 12345 0
                  eq_refl eq_refl eq_refl)).
Defined.

Lemma get_wallet_transactions_deterministic_fst {R : PyRandom}
      addr asset asset' (g g' : rng_state) :
  fst (get_wallet_transactions addr asset g) =
  fst (get_wallet_transactions addr asset' g').
Proof. reflexivity. Qed.

Section RepeatedRequests.

Context {R : PyRandom} {N : PyNumeric}.

Lemma run_inference_fst state features edge_index (w w' : World) :
  fst (run_inference state features edge_index w) =
  fst (run_inference state features edge_index w').
Proof.
  unfold run_inference.
  destruct (model state features edge_index) as [output|e]; [|reflexivity].
  destruct (index (map (map torch_exp) output) 0); reflexivity.
Qed.

(** The answer to a request does not depend on what happened before it:
    whatever the generator state, the tasks already scheduled and the
    earlier inferences, the same request gets the same result.  Nor does
    the asset matter, except for being repeated in the body: two
    requests for the same wallet either raise the same exception or
    return bodies with the same address, score and decision. *)
Theorem analyze_wallet_repeatable state addr asset asset' (w w' : World) :
  match fst (analyze_wallet state (mkFraudCheck addr asset) w),
        fst (analyze_wallet state (mkFraudCheck addr asset') w') with
  | Ok r, Ok r' =>
    address r = address r' /\ risk_score r = risk_score r' /\
    decision r = decision r' /\
    monitored_asset r = asset /\ monitored_asset r' = asset'
  | Raise e, Raise e' => e = e'
  | _, _ => False
  end.
Proof.
  rewrite !analyze_wallet_steps. cbv zeta. cbn [wallet_address asset_id].
  assert (Hres : fst (resolve_wallet state (mkFraudCheck addr asset') w') =
                 fst (resolve_wallet state (mkFraudCheck addr asset) w)).
  { unfold resolve_wallet, try_except, bind, lift. cbn [wallet_address].
    destruct (encoder state) as [enc|]; [|reflexivity].
    destruct (transform enc [addr]) as [ys|e]; cbn.
    - destruct (index ys 0) as [i|e]; [reflexivity|]. destruct e; reflexivity.
    - destruct e; reflexivity. }
  rewrite Hres.
  rewrite (get_wallet_transactions_deterministic_fst addr asset' asset (rng w') (rng w)).
  destruct (fst (resolve_wallet state (mkFraudCheck addr asset) w)); [|reflexivity].
  destruct (extract_features _ addr) as [f|e]; [|reflexivity].
  match goal with
  | |- context [fst (run_inference state ?fs ?ei ?w1)] =>
    match goal with
    | |- context [fst (run_inference state fs ei ?w2)] =>
      lazymatch w1 with
      | w2 => fail
      | _ => rewrite (run_inference_fst state fs ei w1 w2)
      end
    end
  end.
  destruct (fst (run_inference _ _ _ _)) as [risk|e]; [|reflexivity].
  cbn. auto.
Qed.

End RepeatedRequests.

(** * The risk score of a returned body *)

Lemma of_int_1 : of_int 1 = S754_finite false 4503599627370496 (-52).
Proof. vm_compute. reflexivity. Qed.

(** The floats nearest to [k * 10^-4], for [k] from 0 to [10^4], lie in
    [0, 1]. *)
Lemma decimal4_unit (k : Z) :
  0 <= k <= 10000 ->
  leb float_zero (decimal4 k) = true /\
  leb (decimal4 k) float_one = true.
Proof.
  intros Hk. unfold decimal4.
  destruct (Z.eq_dec k 10000) as [->|Hne]; [split; vm_compute; reflexivity|].
  destruct (Z.eq_dec k 0) as [->|Hne0]; [split; vm_compute; reflexivity|].
  destruct k as [|pk|pk]; try lia.
  assert (H52 : 10000 < 2 ^ 52) by (apply Z.ltb_lt; reflexivity).
  destruct (div_pos_nearest pk 10000) as (m & E & HE & Hdiv & Hm & Hnear); [lia|lia|].
  assert (Hq : int_truediv (Zpos pk) 10000 = Ok (S754_finite false m (- E))).
  { unfold int_truediv.
    change (Z.pos pk <? 0) with false. change (10000 <? 0) with false.
    change (Z.to_pos (Z.abs (Z.pos pk))) with pk.
    change (Z.to_pos (Z.abs 10000)) with 10000%positive.
    rewrite Hdiv. reflexivity. }
  rewrite Hq. split; [reflexivity|].
  assert (Hlt : ltb (S754_finite false m (- E)) (of_int 1) = true).
  { rewrite of_int_1.
    transitivity (Zpos pk <? 1 * 10000); [|apply Z.ltb_lt; lia].
    apply (ltb_threshold m 4503599627370496 E 52 (Zpos pk) 10000 1);
      try lia; try exact Hm; try exact Hnear. }
  rewrite of_int_1 in Hlt. unfold float_one.
  revert Hlt. unfold ltb, leb, SFltb, SFleb.
  destruct (SFcompare _ _) as [[]|]; intros H; try discriminate H; reflexivity.
Qed.

(** Equal floats are the same number, or two zeros. *)
Lemma eqb_cases (x y : float) :
  eqb x y = true ->
  x = y \/ (exists s s', x = S754_zero s /\ y = S754_zero s').
Proof.
  unfold eqb, SFeqb.
  destruct x as [sx|sx| |sx mx ex], y as [sy|sy| |sy my ey]; cbn [SFcompare];
    try discriminate;
    try (destruct sx; discriminate); try (destruct sy; discriminate).
  - intros _. right. eauto.
  - destruct sx, sy; try discriminate; intros _; left; reflexivity.
  - destruct sx, sy; try discriminate.
    + destruct (Z.compare_spec ex ey) as [->| |]; try discriminate.
      rewrite Pos.compare_cont_spec. unfold Pos.switch_Eq.
      destruct (Pos.compare_spec mx my) as [->| |]; try discriminate.
      intros _. left. reflexivity.
    + destruct (Z.compare_spec ex ey) as [->| |]; try discriminate.
      rewrite Pos.compare_cont_spec. unfold Pos.switch_Eq.
      destruct (Pos.compare_spec mx my) as [->| |]; try discriminate.
      intros _. left. reflexivity.
Qed.

Lemma eqb_unit (x y : float) :
  eqb x y = true ->
  leb float_zero y = true -> leb y float_one = true ->
  leb float_zero x = true /\ leb x float_one = true.
Proof.
  intros Heq H0 H1. destruct (eqb_cases x y Heq) as [->|(s & s' & -> & ->)].
  - auto.
  - destruct s; split; reflexivity.
Qed.

(** A number in [0, 1] is neither NaN nor infinite. *)
Lemma unit_json_compliant (x : float) :
  leb float_zero x = true -> leb x float_one = true -> json_compliant x = true.
Proof.
  destruct x as [s|s| |s m e]; try reflexivity.
  - destruct s; discriminate.
  - discriminate.
Qed.

Section RiskScore.

Context {R : PyRandom} {N : PyNumeric} {NL : PyNumericLaws N} {T : Torch}.

(** The last step of [forward] is [log_softmax]. *)
Lemma forward_log_softmax (net : FraudGNN) x edge_index output :
  forward net x edge_index = Ok output ->
  exists x3, output = log_softmax x3.
Proof.
  unfold forward.
  destruct (conv1 net x edge_index) as [h|e]; [|discriminate].
  cbv zeta. destruct (conv2 net _ edge_index) as [x3|e]; [|discriminate].
  intros [= <-]. eauto.
Qed.

(** C7. For every successful (status 200) response of a service whose
    model is a [FraudGNN], the [risk_score] is [round(p, 4)] of the
    exponential [p] of the log-softmax output at node 0, class 1; it
    lies in [0, 1] and equals the float nearest to a number with four
    decimal places; and [monitored_asset] is the request's [asset_id]. *)
Theorem risk_score_unit_interval enc (net : FraudGNN) data (w : World) resp :
  fst (analyze_wallet (mkAppState enc (gnn_model net)) data w) = Ok resp ->
  http_status (Ok resp) = 200 ->
  (exists f x3 row y,
     extract_features
       (fst (get_wallet_transactions (wallet_address data) (asset_id data) (rng w)))
       (wallet_address data) = Ok f /\
     forward net (tensor [wallet_features f; dummy_features]) [[0; 1]; [1; 0]] =
     Ok (log_softmax x3) /\
     nth_error (log_softmax x3) 0 = Some row /\
     nth_error row 1 = Some y /\
     risk_score resp = py_round (torch_exp y) 4) /\
  leb float_zero (risk_score resp) = true /\
  leb (risk_score resp) float_one = true /\
  (exists k, 0 <= k <= 10000 /\ eqb (risk_score resp) (decimal4 k) = true) /\
  monitored_asset resp = asset_id data.
Proof.
  intros Hok Hst. rewrite analyze_wallet_steps in Hok. cbv zeta in Hok.
  destruct (fst (resolve_wallet _ data w)) as [idx|e]; [|discriminate].
  destruct (extract_features _ _) as [f|e] eqn:Hf; [|discriminate].
  destruct (fst (run_inference _ _ _ _)) as [risk|e] eqn:Hrun; [|discriminate].
  injection Hok as <-. cbn [risk_score monitored_asset].
  cbn [http_status risk_score] in Hst.
  unfold run_inference in Hrun. cbn [model] in Hrun. unfold gnn_model in Hrun.
  destruct (forward net _ _) as [output|e] eqn:Hfw; [|discriminate].
  destruct (forward_log_softmax _ _ _ _ Hfw) as [x3 ->].
  unfold index in Hrun. rewrite nth_error_map in Hrun.
  destruct (nth_error (log_softmax x3) 0) as [row|] eqn:Hrow;
    cbn [option_map fst] in Hrun; [|discriminate].
  rewrite nth_error_map in Hrun.
  destruct (nth_error row 1) as [y|] eqn:Hy;
    cbn [option_map fst] in Hrun; [|discriminate].
  injection Hrun as <-.
  destruct (log_softmax_nonpos x3 row y (nth_error_In _ _ Hrow) (nth_error_In _ _ Hy))
    as [->|Hneg].
  - rewrite exp_nan, round_nan in Hst. cbn in Hst. discriminate.
  - destruct (exp_unit y Hneg) as [He0 He1].
    destruct (round_decimal (torch_exp y) He0 He1) as (k & Hk & Heq).
    destruct (decimal4_unit k Hk) as [Hd0 Hd1].
    destruct (eqb_unit _ _ Heq Hd0 Hd1) as [Hr0 Hr1].
    split; [exists f, x3, row, y; auto|].
    split; [exact Hr0|]. split; [exact Hr1|]. split; [eauto|reflexivity].
Qed.

End RiskScore.

(** ** Stand-ins for the numeric libraries

    Functions that meet the laws above, for the concrete run below;
    no theorem depends on them.  [round4] rounds a number of [0, 1]
    to four decimal places, half to even; the exponential and the
    log-softmax are coarse: a log-probability is 0 for the largest entry
    of its row and minus infinity for the others, and the exponential
    takes 0 to 1, minus infinity to 0 and the negative numbers to 0.5. *)

Module ReferenceTorch.

Definition num_float (x : PyNum) : float :=
  match x with
  | PyInt n => of_int n
  | PyFloat x => x
  end.

Definition hard_log_softmax_row (row : list float) : list float :=
  map (fun y => if forallb (fun z => leb z y) row
                then S754_zero true else S754_infinity true) row.

Lemma hard_log_softmax_nonpos (x : Tensor) row y :
  In row (map hard_log_softmax_row x) -> In y row ->
  y = S754_nan \/ leb y float_zero = true.
Proof.
  intros Hrow Hy. apply in_map_iff in Hrow. destruct Hrow as (r & <- & _).
  unfold hard_log_softmax_row in Hy. apply in_map_iff in Hy.
  destruct Hy as (z & <- & _). right.
  destruct (forallb _ r); reflexivity.
Qed.

#[export] Instance torch : Torch := {|
  tensor := map (map num_float);
  relu := map (map (fun x => if ltb x float_zero then float_zero else x));
  dropout := fun x _ => x;
  log_softmax := map hard_log_softmax_row;
  dropout_eval := fun x => eq_refl;
  log_softmax_nonpos := hard_log_softmax_nonpos
|}.

Definition coarse_exp (y : float) : float :=
  match y with
  | S754_nan => S754_nan
  | S754_zero _ => float_one
  | S754_infinity true => float_zero
  | S754_infinity false => S754_infinity false
  | S754_finite true _ _ => literal 1 2
  | S754_finite false _ _ => S754_infinity false
  end.

(** The integer nearest to [n / d], half to even. *)
Definition round_half_even (n d : Z) : Z :=
  match 2 * (n mod d) ?= d with
  | Lt => n / d
  | Gt => n / d + 1
  | Eq => if Z.even (n / d) then n / d else n / d + 1
  end.

Definition round4 (x : float) (ndigits : Z) : float :=
  match x with
  | S754_finite false m e =>
    let k := if 0 <=? e then Zpos m * 2 ^ e * 10 ^ ndigits
             else round_half_even (Zpos m * 10 ^ ndigits) (2 ^ (- e)) in
    let k := if leb x float_one then Z.min k (10 ^ ndigits) else k in
    match int_truediv k (10 ^ ndigits) with
    | Ok q => q
    | Raise _ => S754_nan
    end
  | _ => x
  end.

Lemma round_half_even_nonneg (n d : Z) : 0 <= n -> 0 < d -> 0 <= round_half_even n d.
Proof.
  intros Hn Hd. unfold round_half_even.
  assert (0 <= n / d) by (apply Z.div_pos; lia).
  destruct (2 * (n mod d) ?= d); [destruct (Z.even (n / d))| |]; lia.
Qed.

Lemma coarse_exp_unit (y : float) :
  leb y float_zero = true ->
  leb float_zero (coarse_exp y) = true /\ leb (coarse_exp y) float_one = true.
Proof.
  destruct y as [s|s| |s m e]; cbn [coarse_exp].
  - intros _. split; reflexivity.
  - destruct s; [intros _; split; reflexivity|discriminate].
  - discriminate.
  - destruct s; [intros _; split; vm_compute; reflexivity|discriminate].
Qed.

Lemma eqb_decimal4_refl (k : Z) :
  0 <= k <= 10000 -> eqb (decimal4 k) (decimal4 k) = true.
Proof.
  intros Hk. destruct (decimal4_unit k Hk) as [H0 _].
  revert H0. generalize (decimal4 k). intros x.
  destruct x as [s|s| |s m e].
  - intros _. reflexivity.
  - intros _. destruct s; reflexivity.
  - discriminate.
  - destruct s; [discriminate|]. intros _.
    unfold eqb, SFeqb. cbn [SFcompare]. rewrite Z.compare_refl.
    rewrite Pos.compare_cont_spec, Pos.compare_refl. reflexivity.
Qed.

Lemma round4_decimal (x : float) :
  leb float_zero x = true -> leb x float_one = true ->
  exists k, 0 <= k <= 10000 /\ eqb (round4 x 4) (decimal4 k) = true.
Proof.
  intros H0 H1. destruct x as [s|s| |s m e].
  - exists 0. split; [lia|]. destruct s; reflexivity.
  - destruct s; discriminate.
  - discriminate.
  - destruct s; [discriminate|].
    unfold round4. rewrite H1.
    change (10 ^ 4) with 10000.
    set (k := if 0 <=? e then Zpos m * 2 ^ e * 10000
              else round_half_even (Zpos m * 10000) (2 ^ (- e))).
    assert (Hk : 0 <= k).
    { unfold k. destruct (Z.leb_spec 0 e).
      - assert (0 < 2 ^ e) by (apply Z.pow_pos_nonneg; lia). nia.
      - apply round_half_even_nonneg; [lia|apply Z.pow_pos_nonneg; lia]. }
    exists (Z.min k 10000). split; [lia|].
    apply eqb_decimal4_refl. lia.
Qed.

#[export] Instance numeric : PyNumeric := {|
  torch_exp := coarse_exp;
  py_round := round4
|}.

#[export] Instance numeric_laws : PyNumericLaws numeric := {|
  exp_unit := coarse_exp_unit;
  exp_nan := eq_refl;
  round_nan := fun _ => eq_refl;
  round_decimal := round4_decimal
|}.

(** A network whose layers pass their input on, the second keeping two
    columns. *)
Definition passing_net : FraudGNN :=
  mkFraudGNN (fun x _ => Ok x) (fun x _ => Ok (map (firstn 2) x)) false.

End ReferenceTorch.

(** C7, witness: a request for "MULE_0" on the stand-ins; the body is
    returned with score 1.0. *)
Lemma risk_score_unit_interval_witness :
  exists resp,
    fst (analyze_wallet (R := Reference.lcg) (N := ReferenceTorch.numeric)
           (mkAppState (Some (Reference.encoder_of ["STU_0"; "MULE_0"]))
                       (gnn_model (T := ReferenceTorch.torch)
                                  ReferenceTorch.passing_net))
           (mkFraudCheck "MULE_0" 12345) Reference.world0) = Ok resp /\
    http_status (Ok resp) = 200 /\
    leb float_zero (risk_score resp) = true /\
    leb (risk_score resp) float_one = true /\
    monitored_asset resp = 12345.
Proof.
  exists (mkResponse "MULE_0" float_one "FRAUD_HIGH" 12345).
  assert (Hrun :
            fst (analyze_wallet (R := Reference.lcg) (N := ReferenceTorch.numeric)
                   (mkAppState (Some (Reference.encoder_of ["STU_0"; "MULE_0"]))
                               (gnn_model (T := ReferenceTorch.torch)
                                          ReferenceTorch.passing_net))
                   (mkFraudCheck "MULE_0" 12345) Reference.world0) =
            Ok (mkResponse "MULE_0" float_one "FRAUD_HIGH" 12345))
    by (vm_compute; reflexivity).
  assert (Hst : http_status (Ok (mkResponse "MULE_0" float_one "FRAUD_HIGH" 12345)) = 200)
    by reflexivity.
  split; [exact Hrun|]. split; [exact Hst|].
  destruct (risk_score_unit_interval
              (R := Reference.lcg) (N := ReferenceTorch.numeric)
              (NL := ReferenceTorch.numeric_laws) (T := ReferenceTorch.torch)
              _ _ _ _ _ Hrun Hst) as (_ & H0 & H1 & _ & Ha).
  auto.
Defined.

(** * The structuring score over the transaction list *)

Lemma avg_outgoing_average txns addr :
  average (total_outgoing txns addr) (out_degree txns addr) = avg_outgoing txns addr.
Proof.
  unfold average, avg_outgoing.
  destruct (Z.ltb_spec 0 (out_degree txns addr)); [|reflexivity].
  now rewrite Z.max_l by lia.
Qed.

(** C5. For every transaction list and address, with [out_degree] the
    number of transactions sent by the address and [avg_outgoing] their
    total divided by their number (0 if there is none), both taken over
    the list itself: the features extracted carry these values;
    [structuring_score] is exactly 0.8 when [out_degree > 0] and
    [avg_outgoing < 500], and exactly 0.1 in every other case; in
    particular [avg_outgoing == 500] gives 0.1.  The extraction raises
    only when the division does, which it does not for a non-negative
    total below [2^52] and at most [2^44] transfers. *)
Theorem structuring_score_spec txns addr :
  (forall f,
     extract_features txns addr = Ok f ->
     in_d f = in_degree txns addr /\
     out_d f = out_degree txns addr /\
     total_amount f = total_outgoing txns addr /\
     avg_outgoing txns addr = Ok (avg_amount f) /\
     (0 < out_degree txns addr /\ num_lt (avg_amount f) (PyInt 500) = true ->
      structuring_score f = lit_0_8) /\
     (~ (0 < out_degree txns addr /\ num_lt (avg_amount f) (PyInt 500) = true) ->
      structuring_score f = lit_0_1) /\
     (num_eq (avg_amount f) (PyInt 500) = true ->
      structuring_score f = lit_0_1)) /\
  (forall e, extract_features txns addr = Raise e ->
             avg_outgoing txns addr = Raise e) /\
  (0 <= total_outgoing txns addr < 2 ^ 52 ->
   out_degree txns addr <= 2 ^ 44 ->
   exists f, extract_features txns addr = Ok f).
Proof.
  split; [|split].
  - intros f Hf.
    destruct (extract_features_fields txns addr f Hf)
      as (Hi & Ho & Ht & Havg & Hs & _).
    rewrite Ht, Ho, avg_outgoing_average in Havg.
    split; [exact Hi|]. split; [exact Ho|]. split; [exact Ht|].
    split; [exact Havg|].
    rewrite Hs, Ho. unfold structuring. repeat split.
    + intros [Hout Hlt]. apply Z.ltb_lt in Hout. now rewrite Hout, Hlt.
    + intros Hn. destruct (0 <? out_degree txns addr) eqn:Hout; [|reflexivity].
      destruct (num_lt (avg_amount f) (PyInt 500)) eqn:Hlt; [|reflexivity].
      exfalso. apply Hn. split; [now apply Z.ltb_lt | reflexivity].
    + intros Heq. rewrite (num_eq_not_lt _ _ Heq).
      now rewrite andb_false_r.
  - intros e. unfold extract_features. rewrite avg_outgoing_average.
    destruct (avg_outgoing txns addr) as [avg|e']; [discriminate|].
    intros [= <-]. reflexivity.
  - intros Ht Ho.
    destruct (extract_features_exact txns addr Ht Ho) as (f & Hf & _).
    eauto.
Qed.

(** C5, witness: two outbound transfers of 500 each, whose average is
    exactly 500.0, among transfers of other wallets. *)
Lemma structuring_score_spec_witness :
  extract_features
    [mkTxn "MULE_1" "HUB_COLLECTOR_01" 500; mkTxn "MULE_7" "MULE_1" 100;
     mkTxn "MULE_1" "HUB_COLLECTOR_01" 500]
    "MULE_1"
  = Ok (mkFeatures 1 2 1000 (PyFloat (of_int 500)) lit_0_1 30) /\
  num_eq (PyFloat (of_int 500)) (PyInt 500) = true /\
  avg_outgoing
    [mkTxn "MULE_1" "HUB_COLLECTOR_01" 500; mkTxn "MULE_7" "MULE_1" 100;
     mkTxn "MULE_1" "HUB_COLLECTOR_01" 500]
    "MULE_1" = Ok (PyFloat (of_int 500)) /\
  structuring_score (mkFeatures 1 2 1000 (PyFloat (of_int 500)) lit_0_1 30)
  = lit_0_1.
Proof.
  assert (Hf : extract_features
                 [mkTxn "MULE_1" "HUB_COLLECTOR_01" 500; mkTxn "MULE_7" "MULE_1" 100;
                  mkTxn "MULE_1" "HUB_COLLECTOR_01" 500]
                 "MULE_1"
               = Ok (mkFeatures 1 2 1000 (PyFloat (of_int 500)) lit_0_1 30))
    by (vm_compute; reflexivity).
  assert (Heq : num_eq (PyFloat (of_int 500)) (PyInt 500) = true)
    by (vm_compute; reflexivity).
  destruct (proj1 (structuring_score_spec
                     [mkTxn "MULE_1" "HUB_COLLECTOR_01" 500;
                      mkTxn "MULE_7" "MULE_1" 100;
                      mkTxn "MULE_1" "HUB_COLLECTOR_01" 500] "MULE_1")
                  _ Hf) as (_ & _ & _ & Havg & _ & _ & Hs).
  split; [exact Hf|]. split; [exact Heq|]. split; [exact Havg|].
  exact (Hs Heq).
Defined.
